(** * kite_wrapper: credential resolution and response classification

    A shallow embedding of [kite_wrapper/exceptions.py],
    [kite_wrapper/config.py] and [kite_wrapper/client.py], with the
    properties of the credential resolver, the response classifier and
    the session exchange stated over it.  The parts of [configparser]
    that the package relies on are modelled with it; what the model
    takes from the libraries as given is the record [Library]. *)

From stdpp Require Import base option strings gmap list pretty.
From Stdlib Require Import ZArith Ascii.

Set Warnings "-register-all".
Open Scope Z_scope.
Open Scope string_scope.

(** ** Python values

    [None], and the values a JSON body, a query parameter or an
    exception argument can hold.  JSON numbers are integers here; a
    dict is a finite map with string keys. *)

Inductive value : Type :=
| VNone
| VBool (b : bool)
| VInt (z : Z)
| VStr (s : string)
| VList (l : list value)
| VDict (d : gmap string value).

(** Python truthiness ([bool(v)], what [if v:] tests). *)
Definition truthy (v : value) : bool :=
  match v with
  | VNone => false
  | VBool b => b
  | VInt z => negb (Z.eqb z 0)
  | VStr s => negb (String.eqb s "")
  | VList l => match l with [] => false | _ => true end
  | VDict d => negb (Nat.eqb (size d) 0)
  end.

(** Truthiness of an attribute that holds a string or [None]. *)
Definition truthy_str (o : option string) : bool :=
  match o with
  | Some s => negb (String.eqb s "")
  | None => false
  end.

(** [a if a else b] on such attributes. *)
Definition or_else (a b : option string) : option string :=
  if truthy_str a then a else b.

(** [needle in hay] on strings. *)
Fixpoint contains (needle hay : string) : bool :=
  String.prefix needle hay ||
  match hay with
  | EmptyString => false
  | String _ rest => contains needle rest
  end.

(** [s[:4]] *)
Definition first_four (s : string) : string := String.substring 0 4 s.

(** [s[:4] if s else 'None'] inside an f-string; the same text is printed
    when the alternative is [None] itself. *)
Definition masked (field : option string) : string :=
  if truthy_str field then first_four (default "" field) else "None".

(** A credential cut to its first four characters. *)
Definition cut_to_four (field : option string) : option string :=
  first_four <$> field.

(** [c.upper()] for one character, and [s.upper()], on ASCII letters. *)
Definition upper_ascii (c : Ascii.ascii) : Ascii.ascii :=
  let n := Ascii.nat_of_ascii c in
  if Nat.leb 97 n && Nat.leb n 122 then Ascii.ascii_of_nat (n - 32) else c.

Fixpoint upper (s : string) : string :=
  match s with
  | EmptyString => EmptyString
  | String c rest => String (upper_ascii c) (upper rest)
  end.

(** ** exceptions.py *)

Module exceptions.

(** The base class and its seven subclasses. *)
Inductive kind : Type :=
| KiteException
| GeneralException
| TokenException
| PermissionException
| OrderException
| InputException
| DataException
| NetworkException.

#[export] Instance kind_eq_dec : EqDecision kind.
Proof. solve_decision. Defined.

(** An exception raised by a collaborating library: its class name, the
    text of [str(e)], and its [message] and [code] attributes when the
    object has them ([hasattr]). *)
Record foreign : Type := Foreign {
  exc_name : string;
  exc_str : string;
  exc_message : option string;
  exc_code : option value
}.

(** [Kite k message code] is an instance of the wrapper's class [k],
    built by [KiteException.__init__(message, code=None)]. *)
Inductive exn : Type :=
| Kite (k : kind) (message : value) (code : value)
| Other (e : foreign).

End exceptions.
Export exceptions.

(** Outcome of a call: an exception raised or a value returned. *)
Definition result (A : Type) : Type := exn + A.

(** ** The libraries the package calls *)

(** *** [configparser]

    A [configparser.ConfigParser] is modelled by its data: the raw
    values of the options of the [DEFAULT] section and of each named
    section, under option names that are already lower-case.  The
    sections and their options are Python dicts: they keep the order in
    which their keys were first set, and [ConfigParser.write] writes
    them in that order. *)

Module configparser.

(** [d.get(key)] and [d[key] = v] on a dict with string keys, given as
    its items in order: an assignment to a key that is there keeps its
    place, a new key goes to the end. *)
Fixpoint assoc {A : Type} (key : string) (d : list (string * A)) : option A :=
  match d with
  | [] => None
  | (k, v) :: rest => if String.eqb k key then Some v else assoc key rest
  end.

Fixpoint assoc_set {A : Type} (key : string) (v : A) (d : list (string * A))
  : list (string * A) :=
  match d with
  | [] => [(key, v)]
  | (k, v') :: rest =>
      if String.eqb k key then (key, v) :: rest else (k, v') :: assoc_set key v rest
  end.

Definition options : Type := list (string * string).

Record ConfigParser : Type := {
  defaults : options;
  sections : list (string * options)
}.

(** [configparser.ConfigParser()] *)
Definition new_parser : ConfigParser :=
  {| defaults := []; sections := [] |}.

(** [parser.has_section(name)] *)
Definition has_section (name : string) (parser : ConfigParser) : bool :=
  match assoc name (sections parser) with Some _ => true | None => false end.

(** [name in parser] *)
Definition in_parser (name : string) (parser : ConfigParser) : bool :=
  bool_decide (name = "DEFAULT") || has_section name parser.

(** [parser.get(name, option, raw=True, fallback=None)]: the section's
    own option, else the default with that name, else [None]. *)
Definition raw_get (name opt : string) (parser : ConfigParser) : option string :=
  match assoc opt (default [] (assoc name (sections parser))) with
  | Some v => Some v
  | None => assoc opt (defaults parser)
  end.

(** [BasicInterpolation.before_set] removes every [%%] and then every
    match of [%\(([^)]+)\)s], and refuses the value when a percent sign
    is left. *)

(** [value.replace('%%', '')] *)
Fixpoint drop_escaped (s : string) : string :=
  match s with
  | EmptyString => EmptyString
  | String c rest =>
      match rest with
      | String c' rest' =>
          if Ascii.eqb c "%"%char && Ascii.eqb c' "%"%char then drop_escaped rest'
          else String c (drop_escaped rest)
      | EmptyString => String c EmptyString
      end
  end.

(** What follows [[^)]+\)s] at the head of [s], when [s] starts with
    such a text; [seen] tells that the name has a character already. *)
Fixpoint after_name (seen : bool) (s : string) : option string :=
  match s with
  | EmptyString => None
  | String c rest =>
      if Ascii.eqb c ")"%char then
        if seen then
          match rest with
          | String c' rest' => if Ascii.eqb c' "s"%char then Some rest' else None
          | EmptyString => None
          end
        else None
      else after_name true rest
  end.

(** What follows a match of the pattern at the head of [s]. *)
Definition after_reference (s : string) : option string :=
  match s with
  | String c (String c' rest) =>
      if Ascii.eqb c "%"%char && Ascii.eqb c' "("%char then after_name false rest else None
  | _ => None
  end.

(** [_KEYCRE.sub('', s)], leftmost matches first; [skip] characters of
    [s] belong to a match that was found already. *)
Fixpoint drop_references_from (skip : nat) (s : string) : string :=
  match s with
  | EmptyString => EmptyString
  | String c rest =>
      match skip with
      | S k => drop_references_from k rest
      | O =>
          match after_reference s with
          | Some after =>
              drop_references_from (String.length s - String.length after - 1) rest
          | None => String c (drop_references_from 0 rest)
          end
      end
  end.

Definition drop_references (s : string) : string := drop_references_from 0 s.

(** The text [before_set] tests for a percent sign. *)
Definition tmp_value (v : string) : string := drop_references (drop_escaped v).

Definition interpolation_ok (v : string) : bool := negb (contains "%" (tmp_value v)).

(** [s.find('%')] *)
Fixpoint find_percent (s : string) : Z :=
  match s with
  | EmptyString => -1
  | String c rest =>
      if Ascii.eqb c "%"%char then 0
      else let i := find_percent rest in if Z.ltb i 0 then -1 else 1 + i
  end.

End configparser.
Export configparser.

(** *** The file system

    A file is given by what [ConfigParser.read] finds in it once it is
    open, the content as read or the error of the parser
    ([MissingSectionHeaderError], [ParsingError], [DuplicateOptionError],
    ...), and by whether the process can open it for reading and for
    writing.  A directory is an entry that can be opened for neither. *)

Inductive file_content : Type :=
| Parsed (parser : ConfigParser)
| Unparsable (e : foreign).

Record node : Type := {
  content_of : file_content;
  readable : bool;
  writable : bool
}.

(** *** What the model takes from the libraries as given

    [repr_str] and [repr_bytes] are [repr] on [str] and on [bytes].
    [interpolate parser section option raw] is
    [BasicInterpolation.before_get] for a raw value that has a percent
    sign: the interpolated value or the [InterpolationError].
    [reread parser] is what [ConfigParser.read] finds in a file that
    [parser.write] has written, which the data of [parser] and their
    order determine.  [urljoin_general] is
    [urllib.parse.urljoin]. *)
Record Library : Type := {
  repr_str : string → string;
  repr_bytes : string → string;
  interpolate : ConfigParser → string → string → string → foreign + string;
  reread : ConfigParser → file_content;
  urljoin_general : string → string → string
}.

(** ** config.py *)

Module config.

(** [os.path.exists(path)] *)
Definition os_path_exists (fs : gmap string node) (path : string) : bool :=
  bool_decide (is_Some (fs !! path)).

(** [os.path.join(a, b)] (POSIX) *)
Definition os_path_join (a b : string) : string :=
  if String.prefix "/" b then b
  else if String.eqb a "" || String.eqb (String.substring (String.length a - 1) 1 a) "/"
       then a +:+ b
       else a +:+ "/" +:+ b.

(** [parser.read(path)] on a new parser: a file that cannot be opened is
    skipped and leaves the parser empty; a file that opens and does not
    parse raises. *)
Definition parser_read (fs : gmap string node) (path : string)
  : result ConfigParser :=
  match fs !! path with
  | Some file =>
      if readable file then
        match content_of file with
        | Parsed parser => inr parser
        | Unparsable e => inl (Other e)
        end
      else inr new_parser
  | None => inr new_parser
  end.

Section WithLibrary.

Variable lib : Library.

(** [parser[name].get(option)]: [None] without the option, the raw value
    when it has no percent sign, else what the interpolation makes of
    it. *)
Definition section_get (name opt : string) (parser : ConfigParser)
  : result (option string) :=
  match raw_get name opt parser with
  | None => inr None
  | Some raw =>
      if contains "%" raw then
        match interpolate lib parser name opt raw with
        | inl e => inl (Other e)
        | inr v => inr (Some v)
        end
      else inr (Some raw)
  end.

(** [parser.add_section(name)] *)
Definition add_section (name : string) (parser : ConfigParser)
  : result ConfigParser :=
  if String.eqb name "DEFAULT" then
    inl (Other (Foreign "ValueError"
                  ("Invalid section name: " +:+ repr_str lib name) None None))
  else if has_section name parser then
    let message := "Section " +:+ repr_str lib name +:+ " already exists" in
    inl (Other (Foreign "DuplicateSectionError" message (Some message) None))
  else
    inr {| defaults := defaults parser;
           sections := sections parser ++ [(name, [])] |}.

(** The [ValueError] of [before_set]. *)
Definition invalid_interpolation (v : string) : foreign :=
  Foreign "ValueError"
    ("invalid interpolation syntax in " +:+ repr_str lib v
     +:+ " at position " +:+ pretty (find_percent (tmp_value v)))
    None None.

(** [parser[name][option] = v]: [parser[name]] raises [KeyError] for a
    section that is not there, and the assignment raises [ValueError] for
    a non-empty value that [before_set] refuses. *)
Definition section_set (name opt v : string) (parser : ConfigParser)
  : result ConfigParser :=
  if negb (in_parser name parser) then
    inl (Other (Foreign "KeyError" (repr_str lib name) None None))
  else if negb (String.eqb v "") && negb (interpolation_ok v) then
    inl (Other (invalid_interpolation v))
  else if String.eqb name "DEFAULT" then
    inr {| defaults := assoc_set opt v (defaults parser);
           sections := sections parser |}
  else
    inr {| defaults := defaults parser;
           sections := assoc_set name
                         (assoc_set opt v (default [] (assoc name (sections parser))))
                         (sections parser) |}.

(** [with open(path, 'w') as f: parser.write(f)]; [None] is the
    [IOError] of a path that cannot be opened for writing.  The
    permissions of an existing file stay as they are. *)
Definition write_file (fs : gmap string node) (path : string)
    (parser : ConfigParser) : option (gmap string node) :=
  match fs !! path with
  | Some file =>
      if writable file then
        Some (<[path := {| content_of := reread lib parser;
                           readable := readable file;
                           writable := true |}]> fs)
      else None
  | None =>
      Some (<[path := {| content_of := reread lib parser;
                         readable := true; writable := true |}]> fs)
  end.

(** *** [class KiteConfig] *)

Record KiteConfig : Type := {
  api_key : option string;
  api_secret : option string;
  access_token : option string;
  config_path : string
}.

Definition with_api_key (v : option string) (self : KiteConfig) : KiteConfig :=
  {| api_key := v; api_secret := api_secret self;
     access_token := access_token self; config_path := config_path self |}.

Definition with_api_secret (v : option string) (self : KiteConfig) : KiteConfig :=
  {| api_key := api_key self; api_secret := v;
     access_token := access_token self; config_path := config_path self |}.

Definition with_access_token (v : option string) (self : KiteConfig) : KiteConfig :=
  {| api_key := api_key self; api_secret := api_secret self;
     access_token := v; config_path := config_path self |}.

Definition missing_message : string :=
  "API key or secret is missing. Please set them in config or environment variables.".

(** A step of a method: its outcome and the object as it leaves it.
    [and_then] runs the next step unless the first one raised. *)
Definition step : Type := result unit * KiteConfig.

Definition and_then (first : step) (next : KiteConfig → step) : step :=
  match first with
  | (inl e, self) => (inl e, self)
  | (inr _, self) => next self
  end.

(** [KiteConfig._load_config] runs three blocks in turn.  Lines 21 to 26:
    what the direct parameters left at [None] is read from the
    environment. *)
Definition from_environment (environ : gmap string string) (self : KiteConfig)
  : KiteConfig :=
  let self := if api_key self is None
              then with_api_key (environ !! "KITE_API_KEY") self else self in
  let self := if api_secret self is None
              then with_api_secret (environ !! "KITE_API_SECRET") self else self in
  if access_token self is None
  then with_access_token (environ !! "KITE_ACCESS_TOKEN") self else self.

(** Lines 35 and 36. *)
Definition read_api_key (parser : ConfigParser) (self : KiteConfig) : step :=
  if api_key self is None then
    match section_get "Kite" "api_key" parser with
    | inl e => (inl e, self)
    | inr v => (inr (), with_api_key v self)
    end
  else (inr (), self).

(** Lines 37 and 38. *)
Definition read_api_secret (parser : ConfigParser) (self : KiteConfig) : step :=
  if api_secret self is None then
    match section_get "Kite" "api_secret" parser with
    | inl e => (inl e, self)
    | inr v => (inr (), with_api_secret v self)
    end
  else (inr (), self).

(** Lines 39 and 40. *)
Definition read_access_token (parser : ConfigParser) (self : KiteConfig) : step :=
  if access_token self is None then
    match section_get "Kite" "access_token" parser with
    | inl e => (inl e, self)
    | inr v => (inr (), with_access_token v self)
    end
  else (inr (), self).

(** Lines 30 to 40: what is still [None] is read from the section [Kite]
    of the config file, when there is such a file and such a section. *)
Definition from_file (fs : gmap string node) (self : KiteConfig) : step :=
  if os_path_exists fs (config_path self) then
    match parser_read fs (config_path self) with
    | inl e => (inl e, self)
    | inr parser =>
        if in_parser "Kite" parser then
          and_then (and_then (read_api_key parser self) (read_api_secret parser))
            (read_access_token parser)
        else (inr (), self)
    end
  else (inr (), self).

(** Lines 44 and 45: [if not self.api_key or not self.api_secret: raise]. *)
Definition final_check (self : KiteConfig) : step :=
  if negb (truthy_str (api_key self)) || negb (truthy_str (api_secret self))
  then (inl (Kite DataException (VStr missing_message) VNone), self)
  else (inr (), self).

(** [KiteConfig._load_config]: the outcome and the object as the method
    leaves it. *)
Definition _load_config (environ : gmap string string) (fs : gmap string node)
    (self : KiteConfig) : step :=
  and_then (from_file fs (from_environment environ self)) final_check.

(** What a field holds after a block that fills it from [src] when it is
    still [None]. *)
Definition filled (field src : option string) : option string :=
  if field is None then src else field.

(** [config_path or os.path.join(os.path.expanduser("~"), ".kite",
    "config.ini")]; [home] is what [expanduser] returns. *)
Definition path_or_default (config_path : option string) (home : string) : string :=
  if truthy_str config_path then default "" config_path
  else os_path_join (os_path_join home ".kite") "config.ini".

(** [KiteConfig.__init__] *)
Definition __init__ (api_key api_secret access_token config_path : option string)
    (home : string) (environ : gmap string string) (fs : gmap string node)
  : result KiteConfig :=
  let self :=
    {| api_key := api_key; api_secret := api_secret;
       access_token := access_token;
       config_path := path_or_default config_path home |} in
  match _load_config environ fs self with
  | (inl e, _) => inl e
  | (inr _, self) => inr self
  end.

Definition get_api_key (self : KiteConfig) : option string := api_key self.
Definition get_api_secret (self : KiteConfig) : option string := api_secret self.
Definition get_access_token (self : KiteConfig) : option string := access_token self.

(** [KiteConfig.set_access_token]: the outcome, the object and the file
    system as the method leaves them.  The read of line 62 and the
    assignment of line 66 are outside the [try]; the [IOError] of the
    write is caught (lines 67 to 74). *)
Definition set_access_token (token : string) (self : KiteConfig)
    (fs : gmap string node) : result unit * KiteConfig * gmap string node :=
  let self := with_access_token (Some token) self in
  if os_path_exists fs (config_path self) then
    match parser_read fs (config_path self) with
    | inl e => (inl e, self, fs)
    | inr parser =>
        match (if negb (in_parser "Kite" parser)
               then add_section "Kite" parser else inr parser) with
        | inl e => (inl e, self, fs)
        | inr parser =>
            match section_set "Kite" "access_token" token parser with
            | inl e => (inl e, self, fs)
            | inr parser =>
                match write_file fs (config_path self) parser with
                | Some fs' => (inr (), self, fs')
                | None => (inr (), self, fs)
                end
            end
        end
    end
  else (inr (), self, fs).

(** [KiteConfig.__str__] *)
Definition __str__ (self : KiteConfig) : string :=
  "KiteConfig(api_key='" +:+ masked (api_key self)
  +:+ "...', api_secret='" +:+ masked (api_secret self)
  +:+ "...', access_token='" +:+ masked (access_token self)
  +:+ "...', config_path='" +:+ config_path self +:+ "')".

(** *** Vocabulary of the specification

    The definitions below follow the words of the specification; the
    theorems compare them with the code above. *)

(** A credential is blank when its attribute holds [None] (it is absent)
    or the empty string: the values for which [not self.api_key] is
    true. *)
Definition blank (field : option string) : Prop :=
  field = None ∨ field = Some "".

(** Explicit parameter, then environment variable, then config-file
    value: the first source that is supplied. *)
Definition highest_precedence (explicit env file : option string)
  : option string :=
  match explicit, env with
  | Some v, _ => Some v
  | None, Some v => Some v
  | None, None => file
  end.

(** The value the config file at [path] supplies for [field]: the file
    exists, can be read, parses, has a section [Kite], and the section
    has a value for the field that interpolates. *)
Definition file_value (fs : gmap string node) (path field : string)
  : option string :=
  match fs !! path with
  | Some file =>
      match content_of file with
      | Parsed parser =>
          if readable file && in_parser "Kite" parser then
            match section_get "Kite" field parser with
            | inr v => v
            | inl _ => None
            end
          else None
      | Unparsable _ => None
      end
  | None => None
  end.

End WithLibrary.

(** The error of the parser on the file at [path]: the file can be
    opened for reading and does not parse. *)
Definition parse_error (fs : gmap string node) (path : string) : option foreign :=
  match fs !! path with
  | Some file =>
      match content_of file with
      | Unparsable e => if readable file then Some e else None
      | Parsed _ => None
      end
  | None => None
  end.

(** The file at [path] needs no interpolation: the values its section
    [Kite] supplies, if it parses, have no percent sign. *)
Definition plain_values (fs : gmap string node) (path : string) : Prop :=
  ∀ file parser field raw,
    fs !! path = Some file → content_of file = Parsed parser →
    raw_get "Kite" field parser = Some raw → contains "%" raw = false.

(** A value that [parser[name][option] = v] accepts: the empty string,
    which [before_set] is not asked about, or a value it lets pass. *)
Definition storable (v : string) : bool :=
  String.eqb v "" || interpolation_ok v.

(** The content [parser] with [token] as the [access_token] of section
    [Kite], and everything else as it is: a section or an option that is
    there keeps its place, a new one goes to the end. *)
Definition with_stored_token (token : string) (parser : ConfigParser)
  : ConfigParser :=
  {| defaults := defaults parser;
     sections := assoc_set "Kite"
                   (assoc_set "access_token" token
                      (default [] (assoc "Kite" (sections parser))))
                   (sections parser) |}.

(** What [ConfigParser.read] finds at [path]: nothing in a file that
    cannot be opened for reading. *)
Definition as_read (file : node) : file_content :=
  if readable file then content_of file else Parsed new_parser.

(** The option [opt] of section [name] as the parser stores it. *)
Definition stored (name opt : string) (parser : ConfigParser) : option string :=
  assoc name (sections parser) ≫= assoc opt.

End config.

(** ** client.py *)

Module client.
Import config.

(** *** The collaborators of [KiteClient] *)

(** A [requests.Response]: [headers] has lower-case names, [json] is
    what [response.json()] returns, [None] when it raises [ValueError]. *)
Record Response : Type := {
  status_code : Z;
  headers : gmap string string;
  text : string;
  content : string;
  json : option value
}.

(** The arguments of one [session.request(...)] call, with the session
    headers it is sent under. *)
Record Request : Type := {
  method : string;
  uri : string;
  params : option (gmap string value);
  data : option (gmap string value);
  json_body : option (gmap string value);
  timeout : Z;
  request_proxies : gmap string string;
  verify : bool;
  request_headers : gmap string string
}.

(** What [session.request] raises: a
    [requests.exceptions.RequestException] with the text of [str(e)], or
    an exception of another class, such as the [ValueError] for a
    timeout that is not positive. *)
Inductive transport_error : Type :=
| RequestException (cause : string)
| OtherException (e : foreign).

(** The payload of the token exchange: a dict whose [access_token]
    entry, when present, is a string. *)
Record SessionData : Type := {
  sd_access_token : option string;
  sd_fields : gmap string value
}.

(** The [kiteconnect.KiteConnect] object. *)
Record KiteConnect : Type := {
  kc_access_token : option string
}.

(** Calls that leave the process. *)
Inductive event : Type :=
| SessionRequest (r : Request)
| KcGenerateSession (request_token api_secret : string).

(** The world outside the client object: the file system and the calls
    made so far, oldest first. *)
Record World : Type := {
  fs : gmap string node;
  calls : list event
}.

Definition record_call (e : event) (w : World) : World :=
  {| fs := fs w; calls := calls w ++ [e] |}.

Definition with_fs (fs' : gmap string node) (w : World) : World :=
  {| fs := fs'; calls := calls w |}.

(** The headers of a new [requests.Session()]. *)
Definition session_default_headers : gmap string string :=
  {[ "User-Agent" := "python-requests";
     "Accept-Encoding" := "gzip, deflate";
     "Accept" := "*/*";
     "Connection" := "keep-alive" ]}.

(** *** [class KiteClient] *)

Definition _API_VERSION : string := "3".
Definition _root : string := "https://api.kite.trade".
Definition _timeout_default : Z := 7.

(** A route that [urljoin] appends to the root as it is: it starts with
    one slash and is made of letters, digits, [_], [-] and [/], so it
    has no dot segment, query, fragment or parameter. *)
Definition plain_char (c : Ascii.ascii) : bool :=
  let n := Ascii.nat_of_ascii c in
  (Nat.leb 48 n && Nat.leb n 57) || (Nat.leb 65 n && Nat.leb n 90)
  || (Nat.leb 97 n && Nat.leb n 122)
  || Nat.eqb n 47 || Nat.eqb n 95 || Nat.eqb n 45.

Fixpoint all_plain (s : string) : bool :=
  match s with
  | EmptyString => true
  | String c rest => plain_char c && all_plain rest
  end.

Definition plain_route (route : string) : bool :=
  String.prefix "/" route && negb (String.prefix "//" route) && all_plain route.

(** [urljoin(base, route)]: the concatenation for the root of the client
    and a plain route, the function of the library otherwise. *)
Definition urljoin (lib : Library) (base route : string) : string :=
  if String.eqb base "https://api.kite.trade" && plain_route route
  then base +:+ route
  else urljoin_general lib base route.

Definition _exception_map : gmap string kind :=
  list_to_map
    [ ("TokenException", TokenException);
      ("GeneralException", GeneralException);
      ("PermissionException", PermissionException);
      ("OrderException", OrderException);
      ("InputException", InputException);
      ("DataException", DataException);
      ("NetworkException", NetworkException) ].

(** [_exception_map.get(key, KiteException)] for a key that is any
    Python value: a list or a dict cannot be hashed. *)
Definition exception_class_of (key : value) : result kind :=
  match key with
  | VStr s => inr (default KiteException (_exception_map !! s))
  | VList _ =>
      inl (Other (Foreign "TypeError" "unhashable type: 'list'" None None))
  | VDict _ =>
      inl (Other (Foreign "TypeError" "unhashable type: 'dict'" None None))
  | _ => inr KiteException
  end.

Record KiteClient : Type := {
  config : KiteConfig;
  debug : bool;
  access_token : option string;
  api_key : option string;
  api_secret : option string;
  _timeout : Z;
  proxies : gmap string string;
  kite_connect_client : option KiteConnect;
  session_headers : gmap string string
}.

Definition with_session_headers (h : gmap string string) (self : KiteClient)
  : KiteClient :=
  {| config := config self; debug := debug self;
     access_token := access_token self; api_key := api_key self;
     api_secret := api_secret self; _timeout := _timeout self;
     proxies := proxies self; kite_connect_client := kite_connect_client self;
     session_headers := h |}.

Definition with_token (t : option string) (cfg : KiteConfig)
    (kc : option KiteConnect) (self : KiteClient) : KiteClient :=
  {| config := cfg; debug := debug self;
     access_token := t; api_key := api_key self;
     api_secret := api_secret self; _timeout := _timeout self;
     proxies := proxies self; kite_connect_client := kc;
     session_headers := session_headers self |}.

(** The dict that [_update_headers] builds. *)
Definition new_headers (self : KiteClient) : gmap string string :=
  let headers : gmap string string :=
    {[ "X-Kite-Version" := _API_VERSION;
       "User-Agent" := "KiteConnect-Python/3" ]} in
  if truthy_str (api_key self)
  then <["Authorization" :=
           "token " +:+ default "" (api_key self) +:+ ":" +:+
           (if truthy_str (access_token self)
            then default "" (access_token self) else "")]> headers
  else headers.

(** [KiteClient._update_headers]: [session.headers.update(headers)]
    overwrites the names of [headers] and keeps the others. *)
Definition _update_headers (self : KiteClient) : KiteClient :=
  with_session_headers (new_headers self ∪ session_headers self) self.

Definition is_none (v : value) : bool :=
  match v with VNone => true | _ => false end.

Section Collaborators.

Variable lib : Library.

(** [requests.Session.request]: the exception it raises, or a
    response. *)
Variable session_request : Request → transport_error + Response.

(** [KiteConnect.generate_session(request_token, api_secret=...)] *)
Variable kc_generate_session : string → string → result SessionData.

(** [KiteConnect(api_key=..., access_token=..., proxies=..., root=...)];
    [None] when the constructor raises. *)
Variable KiteConnect_new :
  option string → option string → gmap string string → string → option KiteConnect.

(** [KiteClient._request], from the response on (lines 97 to 112). *)
Definition handle_response (response : Response) : result value :=
  let parsed : result value :=
    if contains "application/json" (default "" (headers response !! "content-type"))
    then match json response with
         | Some v => inr v
         | None => inl (Kite DataException
                          (VStr ("Failed to parse JSON response: "
                                 +:+ repr_bytes lib (content response))) VNone)
         end
    else inr (VStr (text response)) in
  match parsed with
  | inl e => inl e
  | inr data =>
      if Z.leb 400 (status_code response) then
        let generic :=
          Kite KiteException
            (VStr ("HTTP error: " +:+ pretty (status_code response)
                   +:+ " - " +:+ text response))
            (VInt (status_code response)) in
        match data with
        | VDict d =>
            if truthy (default VNone (d !! "error_type")) then
              let error_type := default VNone (d !! "error_type") in
              match exception_class_of error_type with
              | inl e => inl e
              | inr exception_class =>
                  inl (Kite exception_class
                         (default (VStr "Unknown error") (d !! "message"))
                         (VInt (status_code response)))
              end
            else inl generic
        | _ => inl generic
        end
      else inr data
  end.

(** The arguments [_request] passes to [session.request]. *)
Definition request_of (method route : string)
    (params data : option (gmap string value)) (is_json : bool)
    (self : KiteClient) : Request :=
  let params := default ∅ params in
  let params := filter (λ kv, is_none kv.2 = false) params in
  let uri := urljoin lib _root route in
  {| method := method; uri := uri;
     params := if String.eqb method "GET" then Some params else None;
     data := if negb (String.eqb method "GET") && negb is_json then data else None;
     json_body := if is_json then data else None;
     timeout := _timeout self;
     request_proxies := proxies self;
     verify := true;
     request_headers := session_headers self |}.

(** [KiteClient._request]: only a [RequestException] of the transport is
    caught (lines 92 and 93). *)
Definition _request (method route : string)
    (params data : option (gmap string value)) (is_json : bool)
    (self : KiteClient) (w : World) : result value * KiteClient * World :=
  let self := _update_headers self in
  let request := request_of method route params data is_json self in
  let w := record_call (SessionRequest request) w in
  match session_request request with
  | inl (RequestException e) =>
      (inl (Kite NetworkException (VStr ("Network error: " +:+ e)) VNone), self, w)
  | inl (OtherException e) => (inl (Other e), self, w)
  | inr response => (handle_response response, self, w)
  end.

(** [KiteClient.set_access_token]: when [KiteConfig.set_access_token]
    raises (line 116), the token is on the client and on its config
    already, and lines 117 to 119 do not run. *)
Definition set_access_token (token : string) (self : KiteClient) (w : World)
  : result unit * KiteClient * World :=
  match config.set_access_token lib token (config self) (fs w) with
  | (inl e, cfg, fs') =>
      (inl e, with_token (Some token) cfg (kite_connect_client self) self,
       with_fs fs' w)
  | (inr _, cfg, fs') =>
      let kc := match kite_connect_client self with
                | Some _ => Some {| kc_access_token := Some token |}
                | None => None
                end in
      (inr (), _update_headers (with_token (Some token) cfg kc self), with_fs fs' w)
  end.

(** The [except Exception as e] handler of [generate_session]. *)
Definition wrap_foreign (e : foreign) : exn :=
  match exc_message e, exc_code e with
  | Some message, Some code =>
      let error_type_name := exc_name e in
      let exception_class := default KiteException (_exception_map !! error_type_name) in
      if bool_decide (is_Some (_exception_map !! error_type_name))
      then Kite exception_class (VStr message) code
      else Kite GeneralException
             (VStr ("Underlying library error (" +:+ error_type_name +:+ "): "
                    +:+ message)) code
  | _, _ =>
      Kite GeneralException
        (VStr ("An underlying error occurred during session generation: "
               +:+ exc_str e)) VNone
  end.

(** [KiteClient.generate_session]: what the [try] block raises goes
    through the two [except] clauses, also what [set_access_token]
    raises after the exchange. *)
Definition generate_session (request_token : string) (api_secret_arg : option string)
    (self : KiteClient) (w : World) : result SessionData * KiteClient * World :=
  match kite_connect_client self with
  | None =>
      (inl (Kite GeneralException
              (VStr "KiteConnect client not initialized. Cannot generate session.")
              VNone), self, w)
  | Some _ =>
      let '(r, self, w) :=
        let secret_to_use := or_else api_secret_arg (api_secret self) in
        if negb (truthy_str secret_to_use) then
          (inl (Kite InputException
                  (VStr "API secret is required to generate a session.") VNone),
           self, w)
        else
          let w := record_call
                     (KcGenerateSession request_token (default "" secret_to_use)) w in
          match kc_generate_session request_token (default "" secret_to_use) with
          | inl e => (inl e, self, w)
          | inr session_data =>
              match sd_access_token session_data with
              | Some token =>
                  match set_access_token token self w with
                  | (inl e, self, w) => (inl e, self, w)
                  | (inr _, self, w) => (inr session_data, self, w)
                  end
              | None =>
                  (inl (Kite TokenException
                          (VStr "Failed to generate session: 'access_token' not found in response.")
                          (default VNone (sd_fields session_data !! "status_code"))),
                   self, w)
              end
          end in
      match r with
      | inl (Kite k message code) => (inl (Kite k message code), self, w)
      | inl (Other e) => (inl (wrap_foreign e), self, w)
      | inr session_data => (inr session_data, self, w)
      end
  end.

(** [KiteClient.get_quote], called with the tuple [instruments] *)
Definition get_quote (instruments : list string) (self : KiteClient) (w : World)
  : result value * KiteClient * World :=
  if bool_decide (instruments = []) then
    (inl (Kite InputException
            (VStr "At least one instrument must be provided for a quote.") VNone),
     self, w)
  else
    let params : gmap string value := {[ "i" := VList (VStr <$> instruments) ]} in
    let route := "/quote" in
    _request "GET" route (Some params) None false self w.

(** [KiteClient.__init__] *)
Definition __init__ (api_key api_secret access_token config_path : option string)
    (debug : bool) (timeout : option Z) (proxies : option (gmap string string))
    (home : string) (environ : gmap string string) (fs : gmap string node)
  : result KiteClient :=
  match config.__init__ lib api_key api_secret access_token config_path
          home environ fs with
  | inl e => inl e
  | inr cfg =>
      let access_token := get_access_token cfg in
      let api_key := get_api_key cfg in
      let api_secret := get_api_secret cfg in
      let proxies := default ∅ proxies in
      let kc :=
        match KiteConnect_new api_key access_token proxies _root with
        | Some kc =>
            if truthy_str access_token
            then Some {| kc_access_token := access_token |}
            else Some kc
        | None => None
        end in
      inr (_update_headers
             {| config := cfg; debug := debug;
                access_token := access_token; api_key := api_key;
                api_secret := api_secret;
                _timeout := match timeout with
                            | Some t => if Z.eqb t 0 then _timeout_default else t
                            | None => _timeout_default
                            end;
                proxies := proxies;
                kite_connect_client := kc;
                session_headers := session_default_headers |})
  end.

(** The clients that construction and the methods above produce, from
    any world, whether the method returned or raised. *)
Inductive reachable : KiteClient → Prop :=
| reachable_init k s t p dbg tmo prx home environ fs self :
    __init__ k s t p dbg tmo prx home environ fs = inr self →
    reachable self
| reachable_set_access_token token self w :
    reachable self → reachable (set_access_token token self w).1.2
| reachable_request method route params data is_json self w :
    reachable self →
    reachable (_request method route params data is_json self w).1.2
| reachable_generate_session request_token api_secret_arg self w :
    reachable self →
    reachable (generate_session request_token api_secret_arg self w).1.2
| reachable_get_quote instruments self w :
    reachable self → reachable (get_quote instruments self w).1.2.

End Collaborators.

(** *** The endpoint methods of [KiteClient] *)

(** [{k: v for k, v in params.items() if v is not None}] *)
Definition drop_none (params : gmap string value) : gmap string value :=
  filter (λ kv, is_none kv.2 = false) params.

(** [1 if flag else 0] *)
Definition flag_int (flag : value) : value :=
  VInt (if truthy flag then 1 else 0).

Section Endpoints.

Variable lib : Library.
Variable session_request : Request → transport_error + Response.

(** [KiteClient.margins] *)
Definition margins (segment : option string) (self : KiteClient) (w : World)
  : result value * KiteClient * World :=
  let route := if truthy_str segment
               then "/user/margins/" +:+ default "" segment
               else "/user/margins" in
  _request lib session_request "GET" route None None false self w.

(** [KiteClient.profile] *)
Definition profile (self : KiteClient) (w : World)
  : result value * KiteClient * World :=
  _request lib session_request "GET" "/user/profile" None None false self w.

(** [KiteClient.place_order]: [locals()] without [self] and [variety],
    then without the entries that are [None]. *)
Definition place_order (variety : string)
    (exchange tradingsymbol transaction_type quantity product order_type
     price validity disclosed_quantity trigger_price squareoff stoploss
     trailing_stoploss tag : value)
    (self : KiteClient) (w : World) : result value * KiteClient * World :=
  let params : gmap string value :=
    list_to_map
      [ ("exchange", exchange); ("tradingsymbol", tradingsymbol);
        ("transaction_type", transaction_type); ("quantity", quantity);
        ("product", product); ("order_type", order_type); ("price", price);
        ("validity", validity); ("disclosed_quantity", disclosed_quantity);
        ("trigger_price", trigger_price); ("squareoff", squareoff);
        ("stoploss", stoploss); ("trailing_stoploss", trailing_stoploss);
        ("tag", tag) ] in
  let payload := drop_none params in
  let route := "/orders/" +:+ variety in
  _request lib session_request "POST" route None (Some payload) true self w.

(** [KiteClient.modify_order] *)
Definition modify_order (variety order_id : string)
    (parent_order_id quantity price order_type trigger_price validity
     disclosed_quantity : value)
    (self : KiteClient) (w : World) : result value * KiteClient * World :=
  let params : gmap string value :=
    list_to_map
      [ ("parent_order_id", parent_order_id); ("quantity", quantity);
        ("price", price); ("order_type", order_type);
        ("trigger_price", trigger_price); ("validity", validity);
        ("disclosed_quantity", disclosed_quantity) ] in
  let payload := drop_none params in
  let route := "/orders/" +:+ variety +:+ "/" +:+ order_id in
  _request lib session_request "PUT" route None (Some payload) true self w.

(** [KiteClient.cancel_order] *)
Definition cancel_order (variety order_id : string) (parent_order_id : option string)
    (self : KiteClient) (w : World) : result value * KiteClient * World :=
  let payload : gmap string value :=
    if truthy_str parent_order_id
    then {[ "parent_order_id" := VStr (default "" parent_order_id) ]}
    else ∅ in
  let route := "/orders/" +:+ variety +:+ "/" +:+ order_id in
  _request lib session_request "DELETE" route
    (if truthy (VDict payload) then Some payload else None) None false self w.

(** [KiteClient.get_order_history] *)
Definition get_order_history (order_id : string) (self : KiteClient) (w : World)
  : result value * KiteClient * World :=
  let route := "/orders/" +:+ order_id in
  _request lib session_request "GET" route None None false self w.

(** [KiteClient.get_trades] *)
Definition get_trades (order_id : option string) (self : KiteClient) (w : World)
  : result value * KiteClient * World :=
  let route := if truthy_str order_id
               then "/orders/" +:+ default "" order_id +:+ "/trades"
               else "/trades" in
  _request lib session_request "GET" route None None false self w.

(** [KiteClient.get_positions] *)
Definition get_positions (self : KiteClient) (w : World)
  : result value * KiteClient * World :=
  _request lib session_request "GET" "/portfolio/positions" None None false self w.

(** [KiteClient.get_holdings] *)
Definition get_holdings (self : KiteClient) (w : World)
  : result value * KiteClient * World :=
  _request lib session_request "GET" "/portfolio/holdings" None None false self w.

(** [KiteClient.get_instruments] *)
Definition get_instruments (exchange : option string) (self : KiteClient) (w : World)
  : result value * KiteClient * World :=
  let route := if truthy_str exchange
               then "/instruments/" +:+ upper (default "" exchange)
               else "/instruments" in
  _request lib session_request "GET" route None None false self w.

(** [KiteClient.get_historical_data]; [instrument_token] and [interval]
    are the texts the f-string prints for them. *)
Definition get_historical_data (instrument_token : string) (from_date to_date : value)
    (interval : string) (continuous oi : value)
    (self : KiteClient) (w : World) : result value * KiteClient * World :=
  let continuous_int := flag_int continuous in
  let oi_int := flag_int oi in
  let final_params : gmap string value :=
    {[ "from" := from_date; "to" := to_date;
       "continuous" := continuous_int; "oi" := oi_int ]} in
  let route := "/instruments/historical/" +:+ instrument_token +:+ "/" +:+ interval in
  _request lib session_request "GET" route (Some final_params) None false self w.

End Endpoints.

(** [KiteClient.__repr__] *)
Definition __repr__ (self : KiteClient) : string :=
  "<KiteClient api_key='" +:+ masked (api_key self) +:+ "...'>".


(** *** Vocabulary of the specification *)

(** [token <api_key>:<access_token>], with the empty string for an absent
    access token. *)
Definition authorization (key : string) (token : option string) : string :=
  "token " +:+ key +:+ ":" +:+ default "" token.

(** [h] is what a recomputation for the credentials of [self] makes of
    the session headers [old]: the version header is "3"; with a key
    that is there and not empty the [Authorization] header is built from
    key and token; with a key that is absent or empty the recomputation
    sets no [Authorization] header, the one of [old], if any, stays. *)
Definition recomputed (old : gmap string string) (self : KiteClient)
    (h : gmap string string) : Prop :=
  h !! "X-Kite-Version" = Some "3"
  ∧ (∀ key, api_key self = Some key → key ≠ "" →
            h !! "Authorization" = Some (authorization key (access_token self)))
  ∧ (blank (api_key self) → h !! "Authorization" = old !! "Authorization").


(** An outcome of a method on [self] in [w] that made one request and
    nothing else: one call more is recorded, the file system is as it
    was, and the client is the one [_update_headers] leaves. *)
Definition one_request (self : KiteClient) (w : World)
    (out : result value * KiteClient * World) : Prop :=
  (∃ request, calls out.2 = (calls w ++ [SessionRequest request])%list)
  ∧ fs out.2 = fs w
  ∧ out.1.2 = _update_headers self.

End client.

(** ** Sample inputs

    The library, the client, the responses and the collaborators of the
    test-suite, for the examples below. *)

Module samples.
Import config client.

(** The libraries on the texts of the examples.  Those are made of
    letters, digits and underscores, so [repr] puts them between quotes
    and a file is read back as it was written; the one value with a
    percent sign that the examples read is [%(home)s], in a file that
    has no option [home]; the routes of the examples are plain, so
    [urljoin_general] is not asked. *)
Definition sample_library : Library :=
  {| repr_str := λ s, "'" +:+ s +:+ "'";
     repr_bytes := λ b, "b'" +:+ b +:+ "'";
     interpolate := λ _ section opt raw,
       let message :=
         "Bad value substitution: option '" +:+ opt +:+ "' in section '"
         +:+ section
         +:+ "' contains an interpolation key 'home' which is not a valid option name. Raw value: '"
         +:+ raw +:+ "'" in
       inl (Foreign "InterpolationMissingOptionError" message (Some message) None);
     reread := Parsed;
     urljoin_general := λ base route, base +:+ route |}.

(** A file with the given content that can be read and written. *)
Definition ini_file (parser : ConfigParser) : node :=
  {| content_of := Parsed parser; readable := true; writable := true |}.

(** The error of [ConfigParser.read] on a file that starts with an
    option line; its text goes on with the name of the file and the
    line. *)
Definition missing_header : foreign :=
  {| exc_name := "MissingSectionHeaderError";
     exc_str := "File contains no section headers.";
     exc_message := Some "File contains no section headers.";
     exc_code := None |}.

(** The file [api_key = F], which has no section header. *)
Definition a_file_without_header : node :=
  {| content_of := Unparsable missing_header; readable := true; writable := true |}.

Definition a_client : KiteClient :=
  {| config := {| config.api_key := Some "myapikey";
                  config.api_secret := Some "myapisecret";
                  config.access_token := Some "myaccesstoken";
                  config_path := "kite.ini" |};
     debug := false;
     access_token := Some "myaccesstoken";
     api_key := Some "myapikey";
     api_secret := Some "myapisecret";
     _timeout := 7;
     proxies := ∅;
     kite_connect_client := Some {| kc_access_token := Some "myaccesstoken" |};
     session_headers := session_default_headers |}.

(** The client of [test_generate_session_no_api_secret]. *)
Definition client_without_secret : KiteClient :=
  {| config := config a_client; debug := false;
     access_token := access_token a_client; api_key := api_key a_client;
     api_secret := None;
     _timeout := 7; proxies := ∅;
     kite_connect_client := kite_connect_client a_client;
     session_headers := session_default_headers |}.

(** The same client when the [KiteConnect] constructor has raised. *)
Definition client_without_secret_uninitialised : KiteClient :=
  {| config := config a_client; debug := false;
     access_token := access_token a_client; api_key := api_key a_client;
     api_secret := None;
     _timeout := 7; proxies := ∅;
     kite_connect_client := None;
     session_headers := session_default_headers |}.

Definition a_world : World := {| fs := ∅; calls := [] |}.

Definition json_error (status : Z) (error_type message : string) : Response :=
  {| status_code := status;
     headers := {[ "content-type" := "application/json" ]};
     text := "";
     content := "";
     json := Some (VDict {[ "error_type" := VStr error_type;
                            "message" := VStr message ]}) |}.


Definition unknown_tag : Response :=
  json_error 400 "MarginException" "Insufficient funds".

Definition html_not_found : Response :=
  {| status_code := 404;
     headers := {[ "content-type" := "text/html" ]};
     text := "Resource not found (HTML page)";
     content := "Resource not found (HTML page)";
     json := None |}.

Definition malformed_json : Response :=
  {| status_code := 200;
     headers := {[ "content-type" := "application/json" ]};
     text := "This is not valid JSON";
     content := "This is not valid JSON";
     json := None |}.

Definition success_json : Response :=
  {| status_code := 200;
     headers := {[ "content-type" := "application/json" ]};
     text := "";
     content := "";
     json := Some (VDict {[ "status" := VStr "success";
                            "data" := VStr "some data" ]}) |}.

Definition responding (response : Response) : Request → transport_error + Response :=
  λ _, inr response.

Definition failing (cause : string) : Request → transport_error + Response :=
  λ _, inl (RequestException cause).

(** A transport that refuses the timeout of the request, as
    [session.request] does for a client built with [timeout=-1]. *)
Definition timeout_error : foreign :=
  {| exc_name := "ValueError";
     exc_str := "Attempted to set connect timeout to -1, but the timeout cannot be set to a value less than or equal to 0.";
     exc_message := None;
     exc_code := None |}.

Definition refusing_timeout : Request → transport_error + Response :=
  λ _, inl (OtherException timeout_error).

(** A [KiteConnect] constructor that does not raise. *)
Definition kite_connect_new
  : option string → option string → gmap string string → string → option KiteConnect :=
  λ _ access_token _ _, Some {| kc_access_token := access_token |}.

Definition exchange_returning (session_data : SessionData)
  : string → string → result SessionData :=
  λ _ _, inr session_data.

Definition a_session : SessionData :=
  {| sd_access_token := Some "newtoken";
     sd_fields := {[ "user_id" := VStr "AB1234" ]} |}.

(** A payload whose token has a lone percent sign. *)
Definition a_session_with_percent : SessionData :=
  {| sd_access_token := Some "tok%en";
     sd_fields := {[ "user_id" := VStr "AB1234" ]} |}.

Definition exchange_raising (e : exn) : string → string → result SessionData :=
  λ _ _, inl e.

(** The exception of
    [test_generate_session_kiteconnect_raises_token_exception]: a class
    of the collaborating library that is named [TokenException]. *)
Definition library_token_exception : foreign :=
  {| exc_name := "TokenException";
     exc_str := "Invalid request token";
     exc_message := Some "Invalid request token";
     exc_code := Some (VInt 403) |}.

(** A JSON error body that names no error type. *)
Definition error_without_type : Response :=
  {| status_code := 500;
     headers := {[ "content-type" := "application/json" ]};
     text := "{}";
     content := "{}";
     json := Some (VDict ∅) |}.

(** A JSON error body whose error type is a list. *)
Definition error_with_list_type : Response :=
  {| status_code := 400;
     headers := {[ "content-type" := "application/json" ]};
     text := "";
     content := "";
     json := Some (VDict {[ "error_type" := VList [VStr "InputException"] ]}) |}.

Definition session_without_token : SessionData :=
  {| sd_access_token := None;
     sd_fields := {[ "status_code" := VInt 400 ]} |}.

(** The file of [test_config_file_missing_kite_section] and the file of
    the other tests of the config. *)
Definition a_file_without_kite : ConfigParser :=
  {| defaults := []; sections := [("General", [("name", "test")])] |}.

Definition a_file : ConfigParser :=
  {| defaults := [];
     sections := [("Kite", [("api_key", "file_api_key");
                            ("api_secret", "file_api_secret");
                            ("access_token", "file_access_token")])] |}.

Definition a_config : KiteConfig :=
  {| config.api_key := Some "test_key"; config.api_secret := Some "test_secret";
     config.access_token := Some "file_access_token";
     config_path := "test_config.ini" |}.

(** A world in which the config file of [a_client] exists. *)
Definition a_world_with_file : World :=
  {| fs := {[ "kite.ini" := ini_file a_file ]}; calls := [] |}.

End samples.

(** * Properties of the credential resolver *)

Module ConfigFacts.
Import config.

Lemma truthy_str_false (o : option string) : truthy_str o = false ↔ blank o.
Proof.
  unfold blank. destruct o as [s|]; simpl.
  - destruct (String.eqb_spec s ""); simpl; split; intros H;
      try congruence; try (right; congruence).
    destruct H as [H|H]; congruence.
  - split; auto.
Qed.

Lemma truthy_str_true (o : option string) :
  truthy_str o = true ↔ ∃ s, o = Some s ∧ s ≠ "".
Proof.
  destruct o as [s|]; simpl.
  - destruct (String.eqb_spec s ""); simpl; split; intros H; try congruence.
    + destruct H as (s' & [= <-] & Hne). congruence.
    + eauto.
  - split; [congruence | intros (s & H & _); congruence].
Qed.

Lemma os_path_exists_file fs path :
  os_path_exists fs path = match fs !! path with Some _ => true | None => false end.
Proof.
  unfold os_path_exists. destruct (fs !! path) eqn:E.
  - apply bool_decide_eq_true_2. eauto.
  - apply bool_decide_eq_false_2. intros [x Hx]. congruence.
Qed.

Lemma highest_precedence_filled explicit env file :
  highest_precedence explicit env file = filled (filled explicit env) file.
Proof. by destruct explicit, env. Qed.

Lemma from_environment_fields environ self :
  let self' := from_environment environ self in
  api_key self' = filled (api_key self) (environ !! "KITE_API_KEY")
  ∧ api_secret self' = filled (api_secret self) (environ !! "KITE_API_SECRET")
  ∧ access_token self' = filled (access_token self) (environ !! "KITE_ACCESS_TOKEN")
  ∧ config_path self' = config_path self.
Proof.
  destruct self as [[k|] [s|] [t|] path]; repeat split; reflexivity.
Qed.

Lemma config_eq (a b : KiteConfig) :
  api_key a = api_key b → api_secret a = api_secret b →
  access_token a = access_token b → config_path a = config_path b → a = b.
Proof. destruct a, b; simpl; by intros -> -> -> ->. Qed.

Lemma kite_in_parser parser :
  in_parser "Kite" parser = has_section "Kite" parser.
Proof. unfold in_parser. by rewrite bool_decide_eq_false_2 by discriminate. Qed.

Lemma has_section_lookup name parser :
  has_section name parser
  = match assoc name (sections parser) with Some _ => true | None => false end.
Proof. reflexivity. Qed.

(** Dict assignment and lookup. *)
Lemma assoc_set_eq {A} key (v : A) d : assoc key (assoc_set key v d) = Some v.
Proof.
  induction d as [|[k v'] d IH]; cbn.
  - by rewrite String.eqb_refl.
  - destruct (String.eqb k key) eqn:E; cbn; [by rewrite String.eqb_refl|].
    by rewrite E.
Qed.

Lemma assoc_set_ne {A} key key' (v : A) d :
  key' ≠ key → assoc key' (assoc_set key v d) = assoc key' d.
Proof.
  intros Hne. induction d as [|[k v'] d IH]; cbn.
  - by destruct (String.eqb_spec key key').
  - destruct (String.eqb_spec k key) as [->|Hk]; cbn.
    + by destruct (String.eqb_spec key key').
    + by rewrite IH.
Qed.

Lemma assoc_set_again {A} key (v1 v2 : A) d :
  assoc_set key v2 (assoc_set key v1 d) = assoc_set key v2 d.
Proof.
  induction d as [|[k v'] d IH]; cbn.
  - by rewrite String.eqb_refl.
  - destruct (String.eqb k key) eqn:E; cbn.
    + by rewrite String.eqb_refl.
    + by rewrite E, IH.
Qed.

(** A new key goes to the end of the dict. *)
Lemma assoc_set_new {A} key (v : A) d :
  assoc key d = None → assoc_set key v d = (d ++ [(key, v)])%list.
Proof.
  induction d as [|[k v'] d IH]; cbn; [done|].
  destruct (String.eqb k key); [done|]. intros H. by rewrite IH.
Qed.

Lemma assoc_app_new {A} key (v : A) d :
  assoc key d = None → assoc key (d ++ [(key, v)])%list = Some v.
Proof.
  induction d as [|[k v'] d IH]; cbn; [by rewrite String.eqb_refl|].
  destruct (String.eqb k key); [done|]. exact IH.
Qed.

Lemma assoc_set_app_new {A} key (v v' : A) d :
  assoc key d = None →
  assoc_set key v' (d ++ [(key, v)])%list = (d ++ [(key, v')])%list.
Proof.
  induction d as [|[k v0] d IH]; cbn; [by rewrite String.eqb_refl|].
  destruct (String.eqb k key); [done|]. intros H. by rewrite IH.
Qed.

Section WithLibrary.

Variable lib : Library.

(** The three reads of the section [Kite], for the values [gk], [gs]
    and [gt] that [get] gives: when none of the reads that are made
    raises, every field is filled from its value. *)
Lemma read_fields_filled parser self :
  let out := and_then (and_then (read_api_key lib parser self)
                         (read_api_secret lib parser))
               (read_access_token lib parser) in
  let value_of (r : result (option string)) :=
    match r with inr v => v | inl _ => None end in
  out.1 = inr () →
  api_key out.2
  = filled (api_key self) (value_of (section_get lib "Kite" "api_key" parser))
  ∧ api_secret out.2
    = filled (api_secret self) (value_of (section_get lib "Kite" "api_secret" parser))
  ∧ access_token out.2
    = filled (access_token self)
        (value_of (section_get lib "Kite" "access_token" parser))
  ∧ config_path out.2 = config_path self.
Proof.
  unfold read_api_key, read_api_secret, read_access_token, and_then.
  generalize (section_get lib "Kite" "api_key" parser) as gk.
  generalize (section_get lib "Kite" "api_secret" parser) as gs.
  generalize (section_get lib "Kite" "access_token" parser) as gt.
  intros gt gs gk.
  destruct self as [[k|] [s|] [t|] path]; cbn;
    destruct gk as [ek|vk]; cbn; try discriminate;
    destruct gs as [es|vs]; cbn; try discriminate;
    destruct gt as [et|vt]; cbn; try discriminate; auto.
Qed.

(** The three reads leave the path alone, and a field that holds a
    value is left as it is. *)
Lemma read_fields_frame parser self :
  let out := and_then (and_then (read_api_key lib parser self)
                         (read_api_secret lib parser))
               (read_access_token lib parser) in
  config_path out.2 = config_path self
  ∧ (∀ v, api_key self = Some v → api_key out.2 = Some v)
  ∧ (∀ v, api_secret self = Some v → api_secret out.2 = Some v)
  ∧ (∀ v, access_token self = Some v → access_token out.2 = Some v).
Proof.
  unfold read_api_key, read_api_secret, read_access_token, and_then.
  generalize (section_get lib "Kite" "api_key" parser) as gk.
  generalize (section_get lib "Kite" "api_secret" parser) as gs.
  generalize (section_get lib "Kite" "access_token" parser) as gt.
  intros gt gs gk.
  destruct self as [[k|] [s|] [t|] path]; cbn;
    destruct gk as [ek|vk]; cbn;
    destruct gs as [es|vs]; cbn;
    destruct gt as [et|vt]; cbn; repeat split; intros; congruence.
Qed.

(** A second round of the three reads, on the object the first round
    left, changes nothing. *)
Lemma read_fields_again parser self :
  let round self := and_then (and_then (read_api_key lib parser self)
                                (read_api_secret lib parser))
                      (read_access_token lib parser) in
  round (round self).2 = round self.
Proof.
  unfold read_api_key, read_api_secret, read_access_token, and_then.
  generalize (section_get lib "Kite" "api_key" parser) as gk.
  generalize (section_get lib "Kite" "api_secret" parser) as gs.
  generalize (section_get lib "Kite" "access_token" parser) as gt.
  intros gt gs gk.
  destruct self as [[k|] [s|] [t|] path]; cbn;
    destruct gk as [ek|[vk|]]; cbn; try reflexivity;
    destruct gs as [es|[vs|]]; cbn; try reflexivity;
    destruct gt as [et|[vt|]]; cbn; reflexivity.
Qed.

Lemma from_file_fields fs self :
  let out := from_file lib fs self in
  let path := config_path self in
  out.1 = inr () →
  api_key out.2 = filled (api_key self) (file_value lib fs path "api_key")
  ∧ api_secret out.2 = filled (api_secret self) (file_value lib fs path "api_secret")
  ∧ access_token out.2
    = filled (access_token self) (file_value lib fs path "access_token")
  ∧ config_path out.2 = path.
Proof.
  assert (Hnone : ∀ field : option string, field = filled field None)
    by (by intros []).
  unfold from_file, file_value, parser_read. rewrite os_path_exists_file.
  destruct (fs !! config_path self) as [[[parser|e] [|] wr]|]; cbn;
    try (intros _; repeat split; apply Hnone); try discriminate.
  destruct (in_parser "Kite" parser).
  - apply read_fields_filled.
  - intros _; repeat split; apply Hnone.
Qed.

(** The path is the same after [from_file], whatever its outcome. *)
Lemma from_file_path fs self :
  config_path (from_file lib fs self).2 = config_path self.
Proof.
  unfold from_file, parser_read. rewrite os_path_exists_file.
  destruct (fs !! config_path self) as [[[parser|e] [|] wr]|]; cbn; try reflexivity.
  destruct (in_parser "Kite" parser); [|reflexivity].
  apply read_fields_frame.
Qed.

(** A file that opens and does not parse stops the load. *)
Lemma from_file_unparsable fs self e :
  parse_error fs (config_path self) = Some e →
  from_file lib fs self = (inl (Other e), self).
Proof.
  unfold parse_error, from_file, parser_read. rewrite os_path_exists_file.
  destruct (fs !! config_path self) as [[[parser|e'] [|] wr]|]; cbn;
    try discriminate.
  by intros [= ->].
Qed.

Lemma section_get_plain name opt parser :
  (∀ raw, raw_get name opt parser = Some raw → contains "%" raw = false) →
  section_get lib name opt parser = inr (raw_get name opt parser).
Proof.
  intros Hplain. unfold section_get.
  destruct (raw_get name opt parser) as [raw|]; [|reflexivity].
  by rewrite (Hplain raw eq_refl).
Qed.

(** A file that parses and needs no interpolation is read without an
    exception, and so is a file that is not there or cannot be opened. *)
Lemma from_file_plain fs self :
  parse_error fs (config_path self) = None →
  plain_values fs (config_path self) →
  (from_file lib fs self).1 = inr ().
Proof.
  unfold parse_error, plain_values, from_file, parser_read.
  rewrite os_path_exists_file.
  destruct (fs !! config_path self) as [[[parser|e] [|] wr]|]; cbn;
    try reflexivity; try discriminate.
  intros _ Hplain.
  destruct (in_parser "Kite" parser); [|reflexivity].
  unfold read_api_key, read_api_secret, read_access_token, and_then.
  rewrite !section_get_plain by (intros raw Hraw; by eapply Hplain).
  generalize (raw_get "Kite" "api_key" parser) as gk.
  generalize (raw_get "Kite" "api_secret" parser) as gs.
  generalize (raw_get "Kite" "access_token" parser) as gt.
  intros gt gs gk.
  by destruct self as [[k|] [s|] [t|] path].
Qed.

Lemma load_config_blocks environ fs self :
  _load_config lib environ fs self
  = and_then (from_file lib fs (from_environment environ self)) final_check.
Proof. reflexivity. Qed.

Lemma final_check_object self : (final_check self).2 = self.
Proof. unfold final_check. by destruct (negb _ || negb _). Qed.

Lemma init_unfold k s t p home environ fs :
  __init__ lib k s t p home environ fs
  = let r := _load_config lib environ fs
               {| api_key := k; api_secret := s; access_token := t;
                  config_path := path_or_default p home |} in
    match r.1 with
    | inl e => inl e
    | inr _ => inr r.2
    end.
Proof.
  unfold __init__. cbv zeta.
  destruct (_load_config _ _ _ _) as [[e|u] self]; reflexivity.
Qed.

(** The fields of the object after a load that did not raise while it
    read the file. *)
Lemma load_fields environ fs k s t path :
  let self0 := {| api_key := k; api_secret := s; access_token := t;
                  config_path := path |} in
  let read := from_file lib fs (from_environment environ self0) in
  read.1 = inr () →
  read.2
  = {| api_key := highest_precedence k (environ !! "KITE_API_KEY")
                    (file_value lib fs path "api_key");
       api_secret := highest_precedence s (environ !! "KITE_API_SECRET")
                       (file_value lib fs path "api_secret");
       access_token := highest_precedence t (environ !! "KITE_ACCESS_TOKEN")
                         (file_value lib fs path "access_token");
       config_path := path |}.
Proof.
  intros self0 read Hread. subst read.
  destruct (from_environment_fields environ self0) as (Ek & Es & Et & Ep).
  destruct (from_file_fields fs (from_environment environ self0) Hread)
    as (Fk & Fs & Ft & Fp).
  rewrite Ep in Fk, Fs, Ft, Fp. rewrite Ek in Fk. rewrite Es in Fs. rewrite Et in Ft.
  apply config_eq; cbn [api_key api_secret access_token config_path];
    rewrite ?highest_precedence_filled; assumption.
Qed.

(** The outcome of the construction when the read of the file did not
    raise. *)
Lemma init_outcome k s t p home environ fs :
  let path := path_or_default p home in
  let key := highest_precedence k (environ !! "KITE_API_KEY")
               (file_value lib fs path "api_key") in
  let secret := highest_precedence s (environ !! "KITE_API_SECRET")
                  (file_value lib fs path "api_secret") in
  let token := highest_precedence t (environ !! "KITE_ACCESS_TOKEN")
                 (file_value lib fs path "access_token") in
  (from_file lib fs
     (from_environment environ
        {| api_key := k; api_secret := s; access_token := t;
           config_path := path |})).1 = inr () →
  __init__ lib k s t p home environ fs
  = if negb (truthy_str key) || negb (truthy_str secret)
    then inl (Kite DataException (VStr missing_message) VNone)
    else inr {| api_key := key; api_secret := secret; access_token := token;
                config_path := path |}.
Proof.
  intros path key secret token Hread.
  pose proof (load_fields environ fs k s t path Hread) as Hfields.
  cbv zeta in Hfields. fold key secret token in Hfields.
  rewrite init_unfold. cbv zeta. fold path. rewrite load_config_blocks.
  destruct (from_file lib fs _) as [[e|[]] self]; cbn in Hread, Hfields;
    [discriminate|].
  subst self. unfold and_then, final_check.
  cbn [api_key api_secret].
  by destruct (negb (truthy_str key) || negb (truthy_str secret)).
Qed.

(** The outcome of the construction when the read of the file raises. *)
Lemma init_read_error k s t p home environ fs e :
  (from_file lib fs
     (from_environment environ
        {| api_key := k; api_secret := s; access_token := t;
           config_path := path_or_default p home |})).1 = inl e →
  __init__ lib k s t p home environ fs = inl e.
Proof.
  intros Hread. rewrite init_unfold. cbv zeta. rewrite load_config_blocks.
  destruct (from_file lib fs _) as [[e'|[]] self]; cbn in Hread; [|discriminate].
  by injection Hread as ->.
Qed.

(** A construction that succeeds has read the file without an exception
    and has found a key and a secret. *)
Lemma init_success k s t p home environ fs cfg :
  __init__ lib k s t p home environ fs = inr cfg →
  (from_file lib fs
     (from_environment environ
        {| api_key := k; api_secret := s; access_token := t;
           config_path := path_or_default p home |})) = (inr (), cfg)
  ∧ truthy_str (api_key cfg) = true
  ∧ truthy_str (api_secret cfg) = true.
Proof.
  rewrite init_unfold. cbv zeta. rewrite load_config_blocks.
  destruct (from_file lib fs _) as [[e'|[]] self]; cbn; [discriminate|].
  unfold final_check.
  destruct (negb (truthy_str (api_key self)) || negb (truthy_str (api_secret self)))
    eqn:E; cbn; [discriminate|].
  intros [= <-]. apply orb_false_iff in E as [Ek Es].
  apply negb_false_iff in Ek, Es. auto.
Qed.

(** The object of a construction that succeeds. *)
Lemma init_fields k s t p home environ fs cfg :
  __init__ lib k s t p home environ fs = inr cfg →
  cfg
  = {| api_key := highest_precedence k (environ !! "KITE_API_KEY")
                    (file_value lib fs (path_or_default p home) "api_key");
       api_secret := highest_precedence s (environ !! "KITE_API_SECRET")
                       (file_value lib fs (path_or_default p home) "api_secret");
       access_token := highest_precedence t (environ !! "KITE_ACCESS_TOKEN")
                         (file_value lib fs (path_or_default p home) "access_token");
       config_path := path_or_default p home |}.
Proof.
  intros Hinit. apply init_success in Hinit as (Hread & _ & _).
  pose proof (load_fields environ fs k s t (path_or_default p home)) as Hfields.
  cbv zeta in Hfields. rewrite Hread in Hfields.
  exact (Hfields eq_refl).
Qed.


(** A file that is not there, cannot be opened for reading, or has no
    section [Kite] supplies no value. *)
Lemma file_value_none fs path field :
  fs !! path = None
  ∨ (∃ file, fs !! path = Some file ∧ readable file = false)
  ∨ (∃ file parser, fs !! path = Some file ∧ content_of file = Parsed parser
                    ∧ assoc "Kite" (sections parser) = None) →
  file_value lib fs path field = None.
Proof.
  unfold file_value.
  intros [-> | [(file & -> & Hr) | (file & parser & -> & -> & Hsec)]].
  - reflexivity.
  - rewrite Hr. by destruct (content_of file).
  - rewrite kite_in_parser, has_section_lookup, Hsec. by rewrite andb_false_r.
Qed.

(** Such a file is read without an exception. *)
Lemma from_file_silent fs self :
  fs !! config_path self = None
  ∨ (∃ file, fs !! config_path self = Some file ∧ readable file = false)
  ∨ (∃ file parser, fs !! config_path self = Some file
                    ∧ content_of file = Parsed parser
                    ∧ assoc "Kite" (sections parser) = None) →
  (from_file lib fs self).1 = inr ().
Proof.
  unfold from_file, parser_read. rewrite os_path_exists_file.
  intros [-> | [(file & -> & Hr) | (file & parser & -> & Hc & Hsec)]].
  - reflexivity.
  - rewrite Hr. reflexivity.
  - rewrite Hc. destruct (readable file); [|reflexivity].
    by rewrite kite_in_parser, has_section_lookup, Hsec.
Qed.

(** C2, as the code has it.  A config file that opens and does not parse
    makes the construction raise the error of the parser, whatever the
    other sources hold.  With a file that parses and needs no
    interpolation, or is not read, the construction fails with
    [DataException], whose message states that the API key or secret is
    missing, exactly when after the three-step precedence the key or the
    secret is absent or the empty string; it raises nothing else; with
    key and secret there it succeeds whatever the token sources hold,
    the token being [None] when no source has one.  A config file that
    is absent, cannot be opened or has no section [Kite] is no error:
    the outcome is the one without any file. *)
Theorem resolution_fails_iff_blank k s t p home environ fs :
  let path := path_or_default p home in
  let key := highest_precedence k (environ !! "KITE_API_KEY")
               (file_value lib fs path "api_key") in
  let secret := highest_precedence s (environ !! "KITE_API_SECRET")
                  (file_value lib fs path "api_secret") in
  let token := highest_precedence t (environ !! "KITE_ACCESS_TOKEN")
                 (file_value lib fs path "access_token") in
  (∀ e, parse_error fs path = Some e →
        __init__ lib k s t p home environ fs = inl (Other e))
  ∧ (parse_error fs path = None → plain_values fs path →
     ((∃ message code,
          __init__ lib k s t p home environ fs
          = inl (Kite DataException message code))
      ↔ blank key ∨ blank secret)
     ∧ (∀ e, __init__ lib k s t p home environ fs = inl e →
             e = Kite DataException (VStr missing_message) VNone)
     ∧ (¬ (blank key ∨ blank secret) →
        __init__ lib k s t p home environ fs
        = inr {| api_key := key; api_secret := secret; access_token := token;
                 config_path := path |}))
  ∧ contains "API key or secret is missing" missing_message = true
  ∧ (fs !! path = None
     ∨ (∃ file, fs !! path = Some file ∧ readable file = false)
     ∨ (∃ file parser, fs !! path = Some file ∧ content_of file = Parsed parser
                       ∧ assoc "Kite" (sections parser) = None) →
     __init__ lib k s t p home environ fs = __init__ lib k s t p home environ ∅).
Proof.
  intros path key secret token.
  set (self1 := from_environment environ
                  {| api_key := k; api_secret := s; access_token := t;
                     config_path := path |}).
  assert (Hpath : config_path self1 = path)
    by apply (from_environment_fields environ).
  assert (Hcond : negb (truthy_str key) || negb (truthy_str secret) = true
                  ↔ blank key ∨ blank secret).
  { rewrite orb_true_iff, !negb_true_iff, !truthy_str_false. tauto. }
  split; [|split; [|split]].
  - intros e He. apply init_read_error. fold path self1.
    rewrite <- Hpath in He. by rewrite (from_file_unparsable fs self1 e He).
  - intros Hparse Hplain.
    assert (Hread : (from_file lib fs self1).1 = inr ())
      by (apply from_file_plain; by rewrite Hpath).
    pose proof (init_outcome k s t p home environ fs Hread) as Hinit.
    cbv zeta in Hinit. fold path key secret token in Hinit.
    split; [split|split].
    + intros (message & code & H). apply Hcond. rewrite Hinit in H.
      destruct (negb _ || negb _); [reflexivity | discriminate].
    + intros H. apply Hcond in H. rewrite Hinit, H. eauto.
    + intros e. rewrite Hinit. destruct (negb _ || negb _); congruence.
    + intros Hn. rewrite Hinit.
      destruct (negb _ || negb _) eqn:E; [|reflexivity].
      exfalso. apply Hn, Hcond. reflexivity.
  - reflexivity.
  - intros Hfile.
    rewrite !init_outcome; cbv zeta; fold path self1.
    + rewrite !(file_value_none fs path) by exact Hfile.
      rewrite !(file_value_none ∅ path) by (left; apply lookup_empty).
      reflexivity.
    + apply from_file_silent. left. apply lookup_empty.
    + apply from_file_silent. by rewrite Hpath.
Qed.

(** What [set_access_token] does between the read and the write: the
    section [Kite] is added when it is missing, and the token is stored
    in it unless [before_set] refuses it. *)
Lemma store_token token parser :
  match (if negb (in_parser "Kite" parser)
         then add_section lib "Kite" parser else inr parser) with
  | inl e => inl e
  | inr parser => section_set lib "Kite" "access_token" token parser
  end
  = if storable token then inr (with_stored_token token parser)
    else inl (Other (invalid_interpolation lib token)).
Proof.
  assert (Hset : ∀ parser' : ConfigParser,
             is_Some (assoc "Kite" (sections parser')) →
             section_set lib "Kite" "access_token" token parser'
             = if storable token then inr (with_stored_token token parser')
               else inl (Other (invalid_interpolation lib token))).
  { intros parser' Hin. unfold section_set, storable, with_stored_token.
    rewrite kite_in_parser, has_section_lookup.
    destruct Hin as [sec ->]. cbn [negb].
    destruct (String.eqb token ""), (interpolation_ok token); reflexivity. }
  rewrite kite_in_parser, has_section_lookup.
  destruct (assoc "Kite" (sections parser)) as [sec|] eqn:Hsec; cbn [negb].
  - apply Hset. rewrite Hsec. eauto.
  - unfold add_section. rewrite has_section_lookup, Hsec.
    change (String.eqb "Kite" "DEFAULT") with false. cbv iota.
    rewrite Hset by (cbn [sections]; rewrite assoc_app_new by done; eauto).
    destruct (storable token); [|reflexivity].
    unfold with_stored_token. cbn [sections defaults].
    rewrite assoc_app_new, Hsec by done. cbn [default from_option id].
    by rewrite (assoc_set_app_new _ _ _ _ Hsec), (assoc_set_new _ _ _ Hsec).
Qed.

(** [KiteConfig.set_access_token], case by case. *)
Lemma set_access_token_unfold token self fs :
  set_access_token lib token self fs
  = let self' := with_access_token (Some token) self in
    match fs !! config_path self with
    | None => (inr (), self', fs)
    | Some file =>
        match as_read file with
        | Unparsable e => (inl (Other e), self', fs)
        | Parsed old =>
            if storable token then
              (inr (), self',
               if writable file
               then <[config_path self :=
                        {| content_of := reread lib (with_stored_token token old);
                           readable := readable file; writable := true |}]> fs
               else fs)
            else (inl (Other (invalid_interpolation lib token)), self', fs)
        end
    end.
Proof.
  unfold set_access_token. cbv zeta. cbn [config_path with_access_token].
  rewrite os_path_exists_file.
  destruct (fs !! config_path self) as [file|] eqn:Hfs; [|reflexivity].
  assert (Hread : parser_read fs (config_path self)
                  = match as_read file with
                    | Parsed parser => inr parser
                    | Unparsable e => inl (Other e)
                    end).
  { unfold parser_read, as_read. rewrite Hfs.
    by destruct (readable file). }
  rewrite Hread. destruct (as_read file) as [old|e]; [|reflexivity].
  pose proof (store_token token old) as Hstore.
  destruct (if negb (in_parser "Kite" old) then add_section lib "Kite" old
            else inr old) as [e|parser1].
  - destruct (storable token); [discriminate|]. by injection Hstore as ->.
  - rewrite Hstore. destruct (storable token); [|reflexivity].
    unfold write_file. rewrite Hfs. by destruct (writable file).
Qed.



End WithLibrary.

(** ** The resolver at the inputs of the test-suite *)

Import samples.

Example default_config_path :
  path_or_default None "/home/user" = "/home/user/.kite/config.ini".
Proof. reflexivity. Qed.

(** End-to-end scenario of the specification: the environment sets key
    and secret, the file sets key and token, nothing is passed. *)
Example resolution_end_to_end :
  __init__ sample_library None None None (Some "kite.ini") "/home/user"
    {[ "KITE_API_KEY" := "E"; "KITE_API_SECRET" := "E2" ]}
    {[ "kite.ini" :=
         ini_file {| defaults := [];
                     sections := [("Kite", [("api_key", "F");
                                            ("access_token", "F2")])] |} ]}
  = inr {| api_key := Some "E"; api_secret := Some "E2";
           access_token := Some "F2"; config_path := "kite.ini" |}.
Proof. vm_compute. reflexivity. Qed.

(** The same sources with the file [api_key = F], which has no section
    header: the error of the parser is raised. *)
Example resolution_unparsable_file :
  __init__ sample_library None None None (Some "kite.ini") "/home/user"
    {[ "KITE_API_KEY" := "E"; "KITE_API_SECRET" := "E2" ]}
    {[ "kite.ini" := a_file_without_header ]}
  = inl (Other missing_header).
Proof. vm_compute. reflexivity. Qed.

(** The same sources with a file whose key refers to an option that is
    not there: the error of the interpolation is raised when the key is
    read, and is not when the environment has supplied the key. *)
Example resolution_interpolation_error :
  let fs : gmap string node :=
    {[ "kite.ini" :=
         ini_file {| defaults := [];
                     sections := [("Kite", [("api_key", "%(home)s")])] |} ]} in
  (∃ e, __init__ sample_library None None None (Some "kite.ini") "/home/user"
          {[ "KITE_API_SECRET" := "E2" ]} fs = inl (Other e)
        ∧ exc_name e = "InterpolationMissingOptionError")
  ∧ __init__ sample_library None None None (Some "kite.ini") "/home/user"
      {[ "KITE_API_KEY" := "E"; "KITE_API_SECRET" := "E2" ]} fs
    = inr {| api_key := Some "E"; api_secret := Some "E2";
             access_token := None; config_path := "kite.ini" |}.
Proof. split; [eexists; split|]; vm_compute; reflexivity. Qed.


(** C2, as stated, fails: an api_key passed as the empty string is
    there after the precedence, and construction still raises
    [DataException]. *)
Lemma empty_key_present_yet_fails :
  let key := highest_precedence (Some "") None
               (file_value sample_library ∅ "kite.ini" "api_key") in
  let secret := highest_precedence (Some "myapisecret") None
                  (file_value sample_library ∅ "kite.ini" "api_secret") in
  ¬ ((∃ message code,
         __init__ sample_library (Some "") (Some "myapisecret") None
           (Some "kite.ini") "/home/user" ∅ ∅
         = inl (Kite DataException message code))
     ↔ key = None ∨ secret = None).
Proof.
  intros key secret [Hfails _].
  destruct Hfails as [H|H]; [|discriminate H|discriminate H].
  exists (VStr missing_message), VNone. reflexivity.
Qed.


(** What the call does instead. *)
Example percent_token_raises :
  let fs : gmap string node := {[ "test_config.ini" := ini_file a_file ]} in
  set_access_token sample_library "tok%en" a_config fs
  = (inl (Other (Foreign "ValueError"
                   "invalid interpolation syntax in 'tok%en' at position 3"
                   None None)),
     with_access_token (Some "tok%en") a_config, fs).
Proof. vm_compute. reflexivity. Qed.

(** The persisted token is in the file that is written. *)
Example set_access_token_example :
  let fs : gmap string node :=
    {[ "kite.ini" :=
         ini_file {| defaults := [];
                     sections := [("General", [("name", "test")])] |} ]} in
  let self := {| api_key := Some "k"; api_secret := Some "s";
                 access_token := None; config_path := "kite.ini" |} in
  (set_access_token sample_library "T" self fs).2
  = {[ "kite.ini" :=
         ini_file {| defaults := [];
                     sections := [("General", [("name", "test")]);
                                  ("Kite", [("access_token", "T")])] |} ]}.
Proof. vm_compute. reflexivity. Qed.

(** A file that cannot be opened for reading and can be written is
    overwritten with the token alone. *)
Example write_only_file_is_overwritten :
  let fs : gmap string node :=
    {[ "test_config.ini" := {| content_of := Parsed a_file; readable := false;
                               writable := true |} ]} in
  (set_access_token sample_library "T" a_config fs).2
  = {[ "test_config.ini" :=
         {| content_of :=
              Parsed {| defaults := [];
                        sections := [("Kite", [("access_token", "T")])] |};
            readable := false; writable := true |} ]}.
Proof. vm_compute. reflexivity. Qed.

End ConfigFacts.

(** * Properties of the client *)

Module ClientFacts.
Import config client.
Import ConfigFacts.

Lemma prefix_refl (s : string) : String.prefix s s = true.
Proof. induction s as [|a s IH]; simpl; [done|]. by destruct (Ascii.ascii_dec a a). Qed.

Lemma contains_cons (needle : string) (a : Ascii.ascii) (hay : string) :
  contains needle (String a hay)
  = String.prefix needle (String a hay) || contains needle hay.
Proof. reflexivity. Qed.

Lemma contains_refl (s : string) : contains s s = true.
Proof.
  destruct s as [|a s]; [done|]. by rewrite contains_cons, prefix_refl.
Qed.

(** A text is found in every text that ends with it, or that ends with
    a text holding it. *)
Lemma contains_append_middle (front s back : string) :
  contains s back = true → contains s (front +:+ back) = true.
Proof.
  intros H. induction front as [|a front IH]; [done|].
  change (String a front +:+ back) with (String a (front +:+ back)).
  rewrite contains_cons, IH. apply orb_true_r.
Qed.

Lemma contains_append (front s : string) : contains s (front +:+ s) = true.
Proof. apply contains_append_middle, contains_refl. Qed.

Lemma truthy_token_default (token : option string) :
  (if truthy_str token then default "" token else "") = default "" token.
Proof.
  destruct token as [t|]; simpl; [|done].
  by destruct (String.eqb_spec t "") as [->|].
Qed.

Lemma new_headers_version self :
  new_headers self !! "X-Kite-Version" = Some "3".
Proof.
  unfold new_headers. destruct (truthy_str (api_key self)).
  - rewrite lookup_insert_ne by done. by rewrite lookup_insert_eq.
  - by rewrite lookup_insert_eq.
Qed.

Lemma new_headers_authorization self :
  new_headers self !! "Authorization"
  = if truthy_str (api_key self)
    then Some (authorization (default "" (api_key self)) (access_token self))
    else None.
Proof.
  unfold new_headers, authorization. destruct (truthy_str (api_key self)).
  - rewrite lookup_insert_eq. by rewrite truthy_token_default.
  - rewrite lookup_insert_ne by done. by rewrite lookup_singleton_ne.
Qed.

Lemma update_headers_blank self :
  blank (api_key self) →
  new_headers self !! "Authorization" = None
  ∧ session_headers (_update_headers self) !! "Authorization"
    = session_headers self !! "Authorization".
Proof.
  intros Habs. apply truthy_str_false in Habs.
  assert (new_headers self !! "Authorization" = None) as Hnone
    by (by rewrite new_headers_authorization, Habs).
  split; [done|].
  unfold _update_headers. cbn [session_headers with_session_headers].
  by rewrite lookup_union_r.
Qed.

Lemma update_headers_recomputed self :
  recomputed (session_headers self) (_update_headers self)
    (session_headers (_update_headers self)).
Proof.
  unfold recomputed. split; [|split].
  - apply lookup_union_Some_l, new_headers_version.
  - intros key Hkey Hne. apply lookup_union_Some_l.
    rewrite new_headers_authorization.
    change (api_key (_update_headers self)) with (api_key self) in Hkey.
    rewrite Hkey. simpl. by destruct (String.eqb_spec key "").
  - intros Hblank. by apply update_headers_blank.
Qed.

(** The seven names of [_exception_map] map to the classes of the same
    name, and the base class is none of them. *)
Lemma exception_map_lookup name :
  _exception_map !! name
  = if decide (name = "TokenException") then Some TokenException
    else if decide (name = "GeneralException") then Some GeneralException
    else if decide (name = "PermissionException") then Some PermissionException
    else if decide (name = "OrderException") then Some OrderException
    else if decide (name = "InputException") then Some InputException
    else if decide (name = "DataException") then Some DataException
    else if decide (name = "NetworkException") then Some NetworkException
    else None.
Proof.
  unfold _exception_map. cbn [list_to_map foldr uncurry fst snd].
  repeat (rewrite lookup_insert; case_decide; subst;
          [ repeat (rewrite decide_False by discriminate);
            try reflexivity; by rewrite decide_True
          | rewrite decide_False by congruence ]).
  apply lookup_empty.
Qed.

Lemma exception_map_not_base name : _exception_map !! name ≠ Some KiteException.
Proof.
  rewrite exception_map_lookup. repeat case_decide; discriminate.
Qed.


(** What the handler of [generate_session] raises is an exception of
    the wrapper. *)
Lemma wrap_foreign_kind e : ∃ k message code, wrap_foreign e = Kite k message code.
Proof.
  unfold wrap_foreign.
  destruct (exc_message e), (exc_code e); try by eauto.
  destruct (bool_decide _); eauto.
Qed.

Lemma world_eq (w : World) : with_fs (fs w) w = w.
Proof. by destruct w. Qed.

Section WithCollaborators.

Variable lib : Library.
Variable session_request : Request → transport_error + Response.
Variable kc_generate_session : string → string → result SessionData.
Variable KiteConnect_new :
  option string → option string → gmap string string → string → option KiteConnect.

(** A JSON dict body with a non-empty string under [error_type] and a
    status of 400 or more. *)
Lemma handle_response_tagged response d tag :
  contains "application/json" (default "" (headers response !! "content-type")) = true →
  json response = Some (VDict d) →
  (400 ≤ status_code response)%Z →
  d !! "error_type" = Some (VStr tag) →
  tag ≠ "" →
  handle_response lib response
  = inl (Kite (default KiteException (_exception_map !! tag))
           (default (VStr "Unknown error") (d !! "message"))
           (VInt (status_code response))).
Proof.
  intros Hct Hjson Hstatus Htag Hne. unfold handle_response.
  rewrite Hct, Hjson. cbv zeta.
  apply Z.leb_le in Hstatus. rewrite Hstatus, Htag.
  cbn [default from_option id truthy exception_class_of].
  by destruct (String.eqb_spec tag "").
Qed.

(** A body that is not declared as JSON. *)
Lemma handle_response_text response :
  contains "application/json" (default "" (headers response !! "content-type")) = false →
  handle_response lib response
  = if Z.leb 400 (status_code response)
    then inl (Kite KiteException
                (VStr ("HTTP error: " +:+ pretty (status_code response)
                       +:+ " - " +:+ text response))
                (VInt (status_code response)))
    else inr (VStr (text response)).
Proof.
  intros Hct. unfold handle_response. rewrite Hct. reflexivity.
Qed.

(** What [_request] does before it looks at the response. *)
Lemma request_unfold method route params data is_json self w :
  _request lib session_request method route params data is_json self w
  = let self' := _update_headers self in
    let request := request_of lib method route params data is_json self' in
    (match session_request request with
     | inl (RequestException e) =>
         inl (Kite NetworkException (VStr ("Network error: " +:+ e)) VNone)
     | inl (OtherException e) => inl (Other e)
     | inr response => handle_response lib response
     end, self', record_call (SessionRequest request) w).
Proof. unfold _request. cbv zeta. by destruct (session_request _) as [[]|]. Qed.


(** [KiteConfig.set_access_token] always leaves the config with the new
    token, raises exceptions of the libraries only, and writes nothing
    when it raises. *)
Lemma config_set_access_token_facts token cfg fs :
  let out := config.set_access_token lib token cfg fs in
  out.1.2 = with_access_token (Some token) cfg
  ∧ ∀ e, out.1.1 = inl e → out.2 = fs ∧ ∃ cause, e = Other cause.
Proof.
  intros out. subst out. rewrite set_access_token_unfold. cbv zeta.
  destruct (fs !! config_path cfg) as [file|]; [|by split].
  destruct (as_read file) as [old|e]; [|split; [done|intros ? [= <-]; eauto]].
  destruct (storable token); [by split|].
  split; [done|intros ? [= <-]; eauto].
Qed.

(** [KiteClient.set_access_token], by the outcome of the config. *)
Lemma client_set_access_token_unfold token self w :
  set_access_token lib token self w
  = let cfg := with_access_token (Some token) (config self) in
    let persisted := config.set_access_token lib token (config self) (fs w) in
    match persisted.1.1 with
    | inl e =>
        (inl e, with_token (Some token) cfg (kite_connect_client self) self, w)
    | inr _ =>
        (inr (),
         _update_headers
           (with_token (Some token) cfg
              (match kite_connect_client self with
               | Some _ => Some {| kc_access_token := Some token |}
               | None => None
               end) self),
         with_fs persisted.2 w)
    end.
Proof.
  unfold set_access_token. cbv zeta.
  destruct (config_set_access_token_facts token (config self) (fs w)) as [Hcfg Hfail].
  cbv zeta in Hcfg, Hfail.
  destruct (config.set_access_token lib token (config self) (fs w))
    as [[[e|[]] cfg] fs']; cbn [fst snd] in *; subst cfg; [|reflexivity].
  destruct (Hfail e eq_refl) as [-> _]. by rewrite world_eq.
Qed.

(** What [set_access_token] raises is an exception of the libraries. *)
Lemma client_set_access_token_raises token self w e :
  (set_access_token lib token self w).1.1 = inl e → ∃ cause, e = Other cause.
Proof.
  rewrite client_set_access_token_unfold. cbv zeta.
  destruct (config_set_access_token_facts token (config self) (fs w)) as [_ Hfail].
  cbv zeta in Hfail.
  destruct (config.set_access_token lib token (config self) (fs w)).1.1 as [e'|[]];
    [|discriminate].
  intros [= <-]. by destruct (Hfail e' eq_refl) as [_ ?].
Qed.

(** What [generate_session] does once the [KiteConnect] object and a
    secret are there. *)
Lemma generate_session_unfold request_token api_secret_arg self w kc :
  kite_connect_client self = Some kc →
  truthy_str (or_else api_secret_arg (api_secret self)) = true →
  let secret := default "" (or_else api_secret_arg (api_secret self)) in
  let w1 := record_call (KcGenerateSession request_token secret) w in
  generate_session lib kc_generate_session request_token api_secret_arg self w
  = match kc_generate_session request_token secret with
    | inl (Kite k message code) => (inl (Kite k message code), self, w1)
    | inl (Other e) => (inl (wrap_foreign e), self, w1)
    | inr session_data =>
        match sd_access_token session_data with
        | Some token =>
            let stored := set_access_token lib token self w1 in
            (match stored.1.1 with
             | inl (Kite k message code) => inl (Kite k message code)
             | inl (Other e) => inl (wrap_foreign e)
             | inr _ => inr session_data
             end, stored.1.2, stored.2)
        | None =>
            (inl (Kite TokenException
                    (VStr "Failed to generate session: 'access_token' not found in response.")
                    (default VNone (sd_fields session_data !! "status_code"))),
             self, w1)
        end
    end.
Proof.
  intros Hkc Hsecret secret w1. unfold generate_session.
  rewrite Hkc, Hsecret. cbn [negb]. fold secret. fold w1.
  destruct (kc_generate_session request_token secret) as [[k m c|e]|session_data];
    try reflexivity.
  destruct (sd_access_token session_data) as [token|]; [|reflexivity].
  cbv zeta.
  by destruct (set_access_token lib token self w1) as [[[[k m c|e]|[]] self'] w'].
Qed.

(** [generate_session] leaves the client as it was or as
    [set_access_token] leaves it. *)
Lemma generate_session_client request_token api_secret_arg self w :
  (generate_session lib kc_generate_session request_token api_secret_arg self w).1.2
  = self
  ∨ ∃ token w',
      (generate_session lib kc_generate_session request_token api_secret_arg
         self w).1.2
      = (set_access_token lib token self w').1.2.
Proof.
  destruct (kite_connect_client self) as [kc|] eqn:Hkc;
    [|left; unfold generate_session; by rewrite Hkc].
  destruct (truthy_str (or_else api_secret_arg (api_secret self))) eqn:Hsecret;
    [|left; unfold generate_session; by rewrite Hkc, Hsecret].
  rewrite (generate_session_unfold _ _ _ _ _ Hkc Hsecret). cbv zeta.
  destruct (kc_generate_session _ _) as [[k m c|e]|session_data]; try by left.
  destruct (sd_access_token session_data) as [token|]; [|by left].
  right. by eexists token, _.
Qed.






(** C10. Without instruments [get_quote] raises [InputException] and
    leaves client and world as they were, so nothing is sent; with at
    least one instrument it sends one GET request to [/quote] whose
    query parameter [i] is the list of all instruments in the order
    given. *)
Theorem get_quote_instruments self w :
  get_quote lib session_request [] self w
  = (inl (Kite InputException
            (VStr "At least one instrument must be provided for a quote.") VNone),
     self, w)
  ∧ ∀ first rest,
      let instruments := first :: rest in
      ∃ request,
        calls (get_quote lib session_request instruments self w).2
        = (calls w ++ [SessionRequest request])%list
        ∧ method request = "GET"
        ∧ uri request = "https://api.kite.trade/quote"
        ∧ params request = Some {[ "i" := VList (VStr <$> instruments) ]}.
Proof.
  split; [reflexivity|].
  intros first rest instruments. unfold get_quote.
  rewrite bool_decide_eq_false_2 by discriminate.
  rewrite request_unfold. cbn [snd record_call calls].
  eexists. split; [reflexivity|].
  split; [reflexivity | split; [reflexivity|]].
  unfold request_of. cbn [params].
  change (String.eqb "GET" "GET") with true. cbv iota.
  reflexivity.
Qed.

(** The response that the transport returns decides the outcome of
    [_request]. *)
Lemma request_outcome method route params data is_json self w response :
  session_request (request_of lib method route params data is_json (_update_headers self))
  = inr response →
  (_request lib session_request method route params data is_json self w).1.1
  = handle_response lib response.
Proof. intros H. rewrite request_unfold. cbv zeta. cbn [fst]. by rewrite H. Qed.

(** C3, as the code has it.  A JSON dict body with status 400 or more
    whose [error_type] is a non-empty string outside the seven names of
    the taxonomy raises the base class [KiteException], which is none of
    the seven taxonomy classes, with the message of the body and the
    status as code. *)
Theorem unknown_tag_raises_base
    method route params data is_json self w response d tag message :
  session_request (request_of lib method route params data is_json (_update_headers self))
  = inr response →
  contains "application/json" (default "" (headers response !! "content-type")) = true →
  json response = Some (VDict d) →
  (400 ≤ status_code response)%Z →
  d !! "error_type" = Some (VStr tag) →
  tag ≠ "" →
  _exception_map !! tag = None →
  d !! "message" = Some message →
  (_request lib session_request method route params data is_json self w).1.1
  = inl (Kite KiteException message (VInt (status_code response)))
  ∧ ∀ name, _exception_map !! name ≠ Some KiteException.
Proof.
  intros Hsent Hct Hjson Hstatus Htag Hne Hunknown Hmessage.
  split; [|apply exception_map_not_base].
  rewrite (request_outcome _ _ _ _ _ _ _ _ Hsent).
  rewrite (handle_response_tagged _ _ _ Hct Hjson Hstatus Htag Hne).
  by rewrite Hunknown, Hmessage.
Qed.


(** A body without a [message] entry gives the message "Unknown error". *)
Lemma tagged_without_message
    method route params data is_json self w response d tag :
  session_request (request_of lib method route params data is_json (_update_headers self))
  = inr response →
  contains "application/json" (default "" (headers response !! "content-type")) = true →
  json response = Some (VDict d) →
  (400 ≤ status_code response)%Z →
  d !! "error_type" = Some (VStr tag) →
  tag ≠ "" →
  d !! "message" = None →
  (_request lib session_request method route params data is_json self w).1.1
  = inl (Kite (default KiteException (_exception_map !! tag))
           (VStr "Unknown error") (VInt (status_code response))).
Proof.
  intros Hsent Hct Hjson Hstatus Htag Hne Hmessage.
  rewrite (request_outcome _ _ _ _ _ _ _ _ Hsent).
  rewrite (handle_response_tagged _ _ _ Hct Hjson Hstatus Htag Hne).
  by rewrite Hmessage.
Qed.

(** C5. For a response that is not declared as JSON the status alone
    decides: below 400 the text of the body is returned whatever it
    holds, from 400 on the base class [KiteException] is raised with the
    status as code and a message that holds the status and the text. *)
Theorem non_json_status_decides
    method route params data is_json self w response :
  session_request (request_of lib method route params data is_json (_update_headers self))
  = inr response →
  contains "application/json" (default "" (headers response !! "content-type")) = false →
  let outcome :=
    (_request lib session_request method route params data is_json self w).1.1 in
  let message := "HTTP error: " +:+ pretty (status_code response)
                 +:+ " - " +:+ text response in
  ((status_code response < 400)%Z → outcome = inr (VStr (text response)))
  ∧ ((400 ≤ status_code response)%Z →
     outcome = inl (Kite KiteException (VStr message) (VInt (status_code response))))
  ∧ contains (text response) message = true.
Proof.
  intros Hsent Hct outcome message. subst outcome.
  rewrite (request_outcome _ _ _ _ _ _ _ _ Hsent), (handle_response_text _ Hct).
  fold message. split; [|split].
  - intros Hlt. apply Z.leb_gt in Hlt. by rewrite Hlt.
  - intros Hge. apply Z.leb_le in Hge. by rewrite Hge.
  - apply contains_append_middle, contains_append_middle, contains_append.
Qed.

(** C7, as the code has it.  When the secret is absent (or empty) both as
    argument and on the client, [generate_session] raises at once and leaves
    client and world as they were, so no call is recorded:
    [InputException] when the [KiteConnect] object exists,
    [GeneralException] when it does not. *)
Theorem generate_session_without_secret request_token api_secret_arg self w :
  blank api_secret_arg →
  blank (api_secret self) →
  generate_session lib kc_generate_session request_token api_secret_arg self w
  = (inl (match kite_connect_client self with
          | Some _ =>
              Kite InputException
                (VStr "API secret is required to generate a session.") VNone
          | None =>
              Kite GeneralException
                (VStr "KiteConnect client not initialized. Cannot generate session.")
                VNone
          end), self, w).
Proof.
  intros Harg Hself. apply truthy_str_false in Harg, Hself.
  unfold generate_session, or_else. rewrite Harg, Hself.
  by destruct (kite_connect_client self).
Qed.

(** An exception of the collaborating library raised by the exchange
    reaches the caller through the [except Exception] handler. *)
Lemma generate_session_foreign request_token api_secret_arg self w kc e :
  kite_connect_client self = Some kc →
  truthy_str (or_else api_secret_arg (api_secret self)) = true →
  kc_generate_session request_token
    (default "" (or_else api_secret_arg (api_secret self))) = inl (Other e) →
  (generate_session lib kc_generate_session request_token api_secret_arg self w).1.1
  = inl (wrap_foreign e).
Proof.
  intros Hkc Hsecret Hraise.
  rewrite (generate_session_unfold _ _ _ _ _ Hkc Hsecret). cbv zeta.
  by rewrite Hraise.
Qed.

(** C8, as the code has it.  An exception of the collaborating library
    raised by the exchange surfaces as [GeneralException] when its class
    name is outside the taxonomy or it lacks a [message] or a [code]
    attribute: with both attributes the message holds the original
    message and the code is kept, otherwise the message holds [str(e)]
    and there is no code.  With both attributes and a class name of the
    taxonomy it surfaces as the wrapper class of that name, with the
    original message and code. *)
Theorem generate_session_wraps request_token api_secret_arg self w kc e :
  kite_connect_client self = Some kc →
  truthy_str (or_else api_secret_arg (api_secret self)) = true →
  kc_generate_session request_token
    (default "" (or_else api_secret_arg (api_secret self))) = inl (Other e) →
  let raised :=
    (generate_session lib kc_generate_session request_token api_secret_arg
       self w).1.1 in
  (∀ message code,
      exc_message e = Some message → exc_code e = Some code →
      _exception_map !! exc_name e = None →
      let text := "Underlying library error (" +:+ exc_name e +:+ "): " +:+ message in
      raised = inl (Kite GeneralException (VStr text) code)
      ∧ contains message text = true)
  ∧ (exc_message e = None ∨ exc_code e = None →
     let text := "An underlying error occurred during session generation: "
                 +:+ exc_str e in
     raised = inl (Kite GeneralException (VStr text) VNone)
     ∧ contains (exc_str e) text = true)
  ∧ (∀ message code k,
        exc_message e = Some message → exc_code e = Some code →
        _exception_map !! exc_name e = Some k →
        raised = inl (Kite k (VStr message) code)).
Proof.
  intros Hkc Hsecret Hraise raised. subst raised.
  rewrite (generate_session_foreign _ _ _ _ _ _ Hkc Hsecret Hraise).
  unfold wrap_foreign. split; [|split].
  - intros message code Hm Hc Hname. rewrite Hm, Hc, Hname.
    rewrite bool_decide_eq_false_2 by apply is_Some_None.
    split; [reflexivity|].
    apply contains_append_middle, contains_append_middle, contains_append.
  - intros Hmissing. split.
    + destruct Hmissing as [Hm | Hc]; [by rewrite Hm|].
      rewrite Hc. by destruct (exc_message e).
    + apply contains_append.
  - intros message code k Hm Hc Hname. rewrite Hm, Hc, Hname.
    by rewrite bool_decide_eq_true_2 by eauto.
Qed.

End WithCollaborators.

(** ** The theorems at the inputs of the test-suite *)

Import samples.

Example request_success :
  (_request sample_library (responding success_json) "GET" "/test/route" None None
     false a_client a_world).1.1
  = inr (VDict {[ "status" := VStr "success"; "data" := VStr "some data" ]}).
Proof. vm_compute. reflexivity. Qed.

Example request_network_error :
  (_request sample_library (failing "Connection timed out") "GET" "/test/timeout"
     None None false a_client a_world).1.1
  = inl (Kite NetworkException (VStr "Network error: Connection timed out") VNone).
Proof. reflexivity. Qed.

(** An exception of the transport that is no [RequestException] is not
    caught. *)
Example request_refused_timeout :
  (_request sample_library refusing_timeout "GET" "/user/profile" None None false
     a_client a_world).1.1
  = inl (Other timeout_error).
Proof. reflexivity. Qed.

Example request_json_parse_error :
  (_request sample_library (responding malformed_json) "GET" "/test/malformed"
     None None false a_client a_world).1.1
  = inl (Kite DataException
           (VStr "Failed to parse JSON response: b'This is not valid JSON'") VNone).
Proof. vm_compute. reflexivity. Qed.

(** A successful exchange stores the token, recomputes the header and
    records the one call that was made. *)
Example generate_session_success :
  let out := generate_session sample_library (exchange_returning a_session)
               "myrequesttoken" None a_client a_world in
  out.1.1 = inr a_session
  ∧ access_token out.1.2 = Some "newtoken"
  ∧ session_headers out.1.2 !! "Authorization" = Some "token myapikey:newtoken"
  ∧ calls out.2 = [KcGenerateSession "myrequesttoken" "myapisecret"].
Proof. vm_compute. repeat split; reflexivity. Qed.

(** An exchange whose token cannot be persisted: the [ValueError] of
    the config is re-raised as [GeneralException], with the token on the
    client already and the header still built from the old one. *)
Example generate_session_unstorable_token :
  let self := _update_headers a_client in
  let out := generate_session sample_library
               (exchange_returning a_session_with_percent)
               "myrequesttoken" None self a_world_with_file in
  out.1.1
  = inl (Kite GeneralException
           (VStr "An underlying error occurred during session generation: invalid interpolation syntax in 'tok%en' at position 3")
           VNone)
  ∧ access_token out.1.2 = Some "tok%en"
  ∧ config.access_token (config out.1.2) = Some "tok%en"
  ∧ session_headers out.1.2 !! "Authorization" = Some "token myapikey:myaccesstoken"
  ∧ fs out.2 = fs a_world_with_file.
Proof.
  intros self out.
  split; [|split; [|split; [|split]]]; vm_compute; reflexivity.
Qed.


(** C3, as stated, fails: status 400 with the unknown tag
    [MarginException] does not raise [GeneralException]. *)
Lemma unknown_tag_not_general :
  ¬ ∃ message code,
      (_request sample_library (responding unknown_tag) "GET" "/test/error/400"
         None None false a_client a_world).1.1
      = inl (Kite GeneralException message code).
Proof. intros (message & code & H). vm_compute in H. discriminate. Qed.

Lemma unknown_tag_raises_base_witness :
  (_request sample_library (responding unknown_tag) "GET" "/test/error/400"
     None None false a_client a_world).1.1
  = inl (Kite KiteException (VStr "Insufficient funds") (VInt 400))
  ∧ ∀ name, _exception_map !! name ≠ Some KiteException.
Proof.
  apply (unknown_tag_raises_base sample_library (responding unknown_tag)
           "GET" "/test/error/400"
           None None false a_client a_world unknown_tag
           {[ "error_type" := VStr "MarginException";
              "message" := VStr "Insufficient funds" ]}
           "MarginException" (VStr "Insufficient funds"));
    first [ reflexivity | discriminate | (vm_compute; reflexivity) | (vm_compute; discriminate) ].
Defined.


(** The example of the specification: 404 with an HTML body. *)
Lemma non_json_status_decides_witness :
  (_request sample_library (responding html_not_found) "GET" "/test/error/404"
     None None false a_client a_world).1.1
  = inl (Kite KiteException
           (VStr "HTTP error: 404 - Resource not found (HTML page)") (VInt 404)).
Proof.
  apply (non_json_status_decides sample_library (responding html_not_found)
           "GET" "/test/error/404"
           None None false a_client a_world html_not_found);
    first [ reflexivity | (vm_compute; reflexivity) | (vm_compute; discriminate) ].
Defined.

(** C7, as stated, fails: without the [KiteConnect] object the absent
    secret does not raise [InputException]. *)
Lemma uninitialised_not_input :
  ¬ ∃ message code,
      (generate_session sample_library
         (exchange_raising (Other library_token_exception))
         "myrequesttoken" None client_without_secret_uninitialised a_world).1.1
      = inl (Kite InputException message code).
Proof. intros (message & code & H). vm_compute in H. discriminate. Qed.

Lemma generate_session_without_secret_witness :
  generate_session sample_library (exchange_raising (Other library_token_exception))
    "myrequesttoken" None client_without_secret a_world
  = (inl (Kite InputException
            (VStr "API secret is required to generate a session.") VNone),
     client_without_secret, a_world).
Proof.
  apply (generate_session_without_secret sample_library
           (exchange_raising (Other library_token_exception))
           "myrequesttoken" None client_without_secret a_world);
    left; reflexivity.
Defined.

(** C8, as stated, fails: the library's own [TokenException], which is
    not a class of the wrapper, does not surface as [GeneralException]. *)
Lemma library_token_exception_not_general :
  ¬ ∃ message code,
      (generate_session sample_library
         (exchange_raising (Other library_token_exception))
         "myrequesttoken" None a_client a_world).1.1
      = inl (Kite GeneralException message code).
Proof. intros (message & code & H). vm_compute in H. discriminate. Qed.

Lemma generate_session_wraps_witness :
  (generate_session sample_library (exchange_raising (Other library_token_exception))
     "myrequesttoken" None a_client a_world).1.1
  = inl (Kite TokenException (VStr "Invalid request token") (VInt 403)).
Proof.
  refine (proj2 (proj2
            (generate_session_wraps sample_library
               (exchange_raising (Other library_token_exception))
               "myrequesttoken" None a_client a_world
               {| kc_access_token := Some "myaccesstoken" |}
               library_token_exception _ _ _))
            "Invalid request token" (VInt 403) TokenException _ _ _);
    reflexivity.
Defined.

End ClientFacts.

(** * Further properties of the credential resolver *)

Module ConfigMore.
Import config.
Import ConfigFacts.

Section WithLibrary.

Variable lib : Library.

(** [from_file] leaves the path alone and leaves a field that holds a
    value as it is. *)
Lemma from_file_frame fs self :
  let out := from_file lib fs self in
  (∀ v, api_key self = Some v → api_key out.2 = Some v)
  ∧ (∀ v, api_secret self = Some v → api_secret out.2 = Some v)
  ∧ (∀ v, access_token self = Some v → access_token out.2 = Some v).
Proof.
  unfold from_file, parser_read. rewrite os_path_exists_file.
  destruct (fs !! config_path self) as [[[parser|e] [|] wr]|]; cbn; try done.
  destruct (in_parser "Kite" parser); [|done].
  apply read_fields_frame.
Qed.

Lemma from_file_again fs self :
  from_file lib fs (from_file lib fs self).2 = from_file lib fs self.
Proof.
  pose proof (from_file_path lib fs self) as Hpath.
  set (self1 := (from_file lib fs self).2) in *.
  unfold from_file at 1. rewrite Hpath.
  subst self1. unfold from_file.
  destruct (os_path_exists fs (config_path self)); [|reflexivity].
  destruct (parser_read fs (config_path self)) as [e|parser]; [reflexivity|].
  destruct (in_parser "Kite" parser); [|reflexivity].
  apply read_fields_again.
Qed.

(** After the environment and the file, the environment has nothing
    more to fill. *)
Lemma from_environment_again environ fs self :
  let self1 := (from_file lib fs (from_environment environ self)).2 in
  from_environment environ self1 = self1.
Proof.
  intros self1.
  destruct (from_environment_fields environ self) as (Ek & Es & Et & Ep).
  destruct (from_environment_fields environ self1) as (Ek1 & Es1 & Et1 & Ep1).
  destruct (from_file_frame fs (from_environment environ self)) as (Fk & Fs & Ft).
  fold self1 in Fk, Fs, Ft.
  assert (Hfill : ∀ field0 field1 env : option string,
             (∀ v, filled field0 env = Some v → field1 = Some v) →
             filled field1 env = field1).
  { intros field0 [v|] env H; [reflexivity|]. cbn.
    destruct field0 as [v0|]; [discriminate (H v0 eq_refl)|].
    destruct env as [v|]; [discriminate (H v eq_refl) | reflexivity]. }
  apply config_eq; [rewrite Ek1 | rewrite Es1 | rewrite Et1 | exact Ep1].
  - apply (Hfill (api_key self)). by rewrite <- Ek.
  - apply (Hfill (api_secret self)). by rewrite <- Es.
  - apply (Hfill (access_token self)). by rewrite <- Et.
Qed.

(** X1. Loading is idempotent: a second [_load_config] on the object the
    first one left finds nothing more to fill and gives the same outcome
    and the same object. *)
Theorem load_config_idempotent environ fs self :
  _load_config lib environ fs (_load_config lib environ fs self).2
  = _load_config lib environ fs self.
Proof.
  rewrite !load_config_blocks.
  pose proof (from_environment_again environ fs self) as Henv.
  pose proof (from_file_again fs (from_environment environ self)) as Hfile.
  cbv zeta in Henv.
  destruct (from_file lib fs (from_environment environ self)) as [[e|[]] self1];
    cbn [and_then snd] in *.
  - by rewrite Henv, Hfile.
  - rewrite final_check_object, Henv, Hfile. reflexivity.
Qed.

(** X2. When all three credentials are passed directly, the environment
    has no influence on the construction and the config file has one
    only when it opens and does not parse: then the error of the parser
    is raised, otherwise the outcome is decided by the parameters. *)
Theorem explicit_parameters_shadow k s t p home environ fs :
  __init__ lib (Some k) (Some s) (Some t) p home environ fs
  = match parse_error fs (path_or_default p home) with
    | Some e => inl (Other e)
    | None =>
        if String.eqb k "" || String.eqb s ""
        then inl (Kite DataException (VStr missing_message) VNone)
        else inr {| api_key := Some k; api_secret := Some s;
                    access_token := Some t;
                    config_path := path_or_default p home |}
    end.
Proof.
  unfold __init__, _load_config. cbv zeta.
  change (from_environment environ _)
    with {| api_key := Some k; api_secret := Some s; access_token := Some t;
            config_path := path_or_default p home |}.
  set (self := {| api_key := Some k; api_secret := Some s; access_token := Some t;
                  config_path := path_or_default p home |}).
  assert (from_file lib fs self
          = match parse_error fs (path_or_default p home) with
            | Some e => (inl (Other e), self)
            | None => (inr (), self)
            end) as ->.
  { unfold from_file, parser_read, parse_error.
    change (config_path self) with (path_or_default p home).
    rewrite os_path_exists_file.
    destruct (fs !! path_or_default p home) as [[[parser|e] [|] wr]|];
      cbn [content_of readable]; try reflexivity;
      match goal with
      | |- context [in_parser ?name ?parser] => destruct (in_parser name parser)
      end; reflexivity. }
  destruct (parse_error fs (path_or_default p home)) as [e|]; [reflexivity|].
  unfold and_then, final_check, self. cbn [api_key api_secret truthy_str].
  by destruct (String.eqb k ""), (String.eqb s "").
Qed.

Lemma not_percent (c : Ascii.ascii) (s : string) :
  String.prefix "%" (String c s) = false → Ascii.eqb c "%"%char = false.
Proof.
  intros H. destruct (Ascii.eqb_spec c "%"%char) as [->|]; [|done].
  change (String.prefix "%" (String "%" s)) with (String.prefix "" s) in H.
  by destruct s.
Qed.

(** A value without a percent sign passes [before_set]. *)
Lemma drop_escaped_plain (s : string) :
  contains "%" s = false → drop_escaped s = s.
Proof.
  induction s as [|c s IH]; [done|].
  rewrite ClientFacts.contains_cons. intros H.
  apply orb_false_iff in H as [Hc Hs]. specialize (IH Hs).
  apply not_percent in Hc as Hc'.
  cbn. rewrite Hc'. cbn. destruct s as [|c' s]; [done|]. by rewrite IH.
Qed.

Lemma drop_references_plain (s : string) :
  contains "%" s = false → drop_references_from 0 s = s.
Proof.
  induction s as [|c s IH]; [done|].
  rewrite ClientFacts.contains_cons. intros H.
  apply orb_false_iff in H as [Hc Hs]. specialize (IH Hs).
  apply not_percent in Hc as Hc'.
  cbn [drop_references_from].
  assert (after_reference (String c s) = None) as ->.
  { unfold after_reference. destruct s as [|c' s]; [done|]. by rewrite Hc'. }
  by rewrite IH.
Qed.

Lemma plain_is_storable (v : string) : contains "%" v = false → storable v = true.
Proof.
  intros H. unfold storable, interpolation_ok, tmp_value, drop_references.
  rewrite drop_escaped_plain, drop_references_plain, H by done.
  apply orb_true_r.
Qed.

(** The file that [set_access_token] leaves at the path of a readable
    and writable file that parses, for a token that can be stored. *)
Lemma set_access_token_written token self fs file content :
  fs !! config_path self = Some file →
  readable file = true → writable file = true →
  content_of file = Parsed content →
  storable token = true →
  set_access_token lib token self fs
  = (inr (), with_access_token (Some token) self,
     <[config_path self :=
         {| content_of := reread lib (with_stored_token token content);
            readable := true; writable := true |}]> fs).
Proof.
  intros Hfs Hr Hw Hc Hok. rewrite set_access_token_unfold. cbv zeta.
  rewrite Hfs. unfold as_read. by rewrite Hr, Hc, Hok, Hw.
Qed.

Lemma with_stored_token_lookup token parser :
  in_parser "Kite" (with_stored_token token parser) = true
  ∧ raw_get "Kite" "access_token" (with_stored_token token parser) = Some token.
Proof.
  unfold with_stored_token, raw_get. rewrite kite_in_parser, has_section_lookup.
  cbn [sections defaults]. rewrite assoc_set_eq. cbn.
  by rewrite assoc_set_eq.
Qed.

Lemma with_stored_token_other token parser opt :
  opt ≠ "access_token" →
  is_Some (assoc "Kite" (sections parser)) ∨ assoc opt (defaults parser) = None →
  raw_get "Kite" opt (with_stored_token token parser) = raw_get "Kite" opt parser.
Proof.
  intros Hne Hkite. unfold with_stored_token, raw_get. cbn [sections defaults].
  rewrite assoc_set_eq. cbn. rewrite assoc_set_ne by done.
  destruct (assoc "Kite" (sections parser)) as [sec|] eqn:Hsec; [done|].
  destruct Hkite as [[? [=]] | Hdefault]. cbn. by rewrite Hdefault.
Qed.

Lemma with_stored_token_twice first second parser :
  with_stored_token second (with_stored_token first parser)
  = with_stored_token second parser.
Proof.
  unfold with_stored_token. cbn [sections defaults]. f_equal.
  rewrite assoc_set_eq. cbn. by rewrite !assoc_set_again.
Qed.

(** X3. Persist and reload: after [set_access_token] with a token
    without a percent sign on an existing file that can be read and
    written and that parses, and when the file that was written is read
    back as it was written, the file supplies the new token, and a later
    construction at that path that gets no token from a parameter or
    from the environment resolves to it. *)
Theorem persisted_token_is_reloaded
    token self fs file content k s p home environ cfg :
  fs !! config_path self = Some file →
  readable file = true → writable file = true →
  content_of file = Parsed content →
  contains "%" token = false →
  reread lib (with_stored_token token content)
  = Parsed (with_stored_token token content) →
  path_or_default p home = config_path self →
  environ !! "KITE_ACCESS_TOKEN" = None →
  __init__ lib k s None p home environ (set_access_token lib token self fs).2
  = inr cfg →
  file_value lib (set_access_token lib token self fs).2 (config_path self)
    "access_token" = Some token
  ∧ access_token cfg = Some token.
Proof.
  intros Hfs Hr Hw Hc Hplain Hback Hpath Henv Hinit.
  assert (file_value lib (set_access_token lib token self fs).2 (config_path self)
            "access_token" = Some token) as Hfile.
  { rewrite (set_access_token_written _ _ _ _ _ Hfs Hr Hw Hc
               (plain_is_storable _ Hplain)).
    cbn [snd]. unfold file_value. rewrite lookup_insert_eq.
    cbn [content_of readable]. rewrite Hback.
    destruct (with_stored_token_lookup token content) as [-> Hraw].
    cbn [andb]. unfold section_get. by rewrite Hraw, Hplain. }
  split; [done|].
  apply init_fields in Hinit. subst cfg. cbn [access_token].
  by rewrite Hpath, Henv, Hfile.
Qed.

(** X4. The last token wins: on an existing file that can be read and
    written and that parses, for two tokens that can be stored, and when
    the file written for the first is read back as it was written,
    persisting the second token after the first one leaves the object
    and the file system as persisting the second one alone does. *)
Theorem set_access_token_last_wins first second self fs file content :
  fs !! config_path self = Some file →
  readable file = true → writable file = true →
  content_of file = Parsed content →
  storable first = true → storable second = true →
  reread lib (with_stored_token first content)
  = Parsed (with_stored_token first content) →
  set_access_token lib second (set_access_token lib first self fs).1.2
    (set_access_token lib first self fs).2
  = set_access_token lib second self fs.
Proof.
  intros Hfs Hr Hw Hc Hfirst Hsecond Hback.
  rewrite (set_access_token_written first _ _ _ _ Hfs Hr Hw Hc Hfirst).
  cbn [fst snd].
  rewrite (set_access_token_written second self _ _ _ Hfs Hr Hw Hc Hsecond).
  rewrite (set_access_token_written second (with_access_token (Some first) self)
             _ {| content_of := reread lib (with_stored_token first content);
                  readable := true; writable := true |}
             (with_stored_token first content));
    try done; [|cbn [config_path with_access_token]; apply lookup_insert_eq].
  cbn [config_path with_access_token].
  by rewrite insert_insert_eq, with_stored_token_twice.
Qed.

(** X5. Persisting a token that can be stored, on an existing file that
    can be read and written and that parses, leaves what the file
    supplies for another field as it was, when the file that was
    written is read back as it was written, the value of the field has
    no percent sign, and the file already has a section [Kite] or has no
    default for the field. *)
Theorem persisting_keeps_file_credentials token self fs file content field :
  fs !! config_path self = Some file →
  readable file = true → writable file = true →
  content_of file = Parsed content →
  storable token = true →
  reread lib (with_stored_token token content)
  = Parsed (with_stored_token token content) →
  field ≠ "access_token" →
  is_Some (assoc "Kite" (sections content)) ∨ assoc field (defaults content) = None →
  (∀ raw, raw_get "Kite" field content = Some raw → contains "%" raw = false) →
  file_value lib (set_access_token lib token self fs).2 (config_path self) field
  = file_value lib fs (config_path self) field.
Proof.
  intros Hfs Hr Hw Hc Hok Hback Hfield Hkite Hplain.
  rewrite (set_access_token_written _ _ _ _ _ Hfs Hr Hw Hc Hok). cbn [snd].
  unfold file_value. rewrite lookup_insert_eq, Hfs.
  cbn [content_of readable]. rewrite Hback, Hc, Hr.
  destruct (with_stored_token_lookup token content) as [-> _]. cbn [andb].
  rewrite !section_get_plain;
    rewrite ?(with_stored_token_other token content field Hfield Hkite);
    try exact Hplain.
  rewrite kite_in_parser, has_section_lookup.
  destruct (assoc "Kite" (sections content)) as [sec|] eqn:Hsec; [done|].
  destruct Hkite as [[? [=]] | Hdefault].
  unfold raw_get. by rewrite Hsec, Hdefault.
Qed.

End WithLibrary.

Lemma first_four_again (s : string) : first_four (first_four s) = first_four s.
Proof. by destruct s as [|a [|b [|c [|d [|e rest]]]]]. Qed.

Lemma first_four_empty (s : string) :
  String.eqb (first_four s) "" = String.eqb s "".
Proof. by destruct s as [|a [|b rest]]. Qed.

Lemma masked_cut (field : option string) : masked (cut_to_four field) = masked field.
Proof.
  destruct field as [s|]; [|done]. unfold masked, cut_to_four. simpl.
  by rewrite first_four_empty, first_four_again.
Qed.

(** X6. Printing reveals at most the first four characters of each
    credential: [__str__] of a config and [__repr__] of a client give the
    text they give when every credential is cut to four characters. *)
Theorem printing_masks_credentials (cfg : KiteConfig) (self : client.KiteClient) :
  __str__ cfg
  = __str__ {| api_key := cut_to_four (api_key cfg);
               api_secret := cut_to_four (api_secret cfg);
               access_token := cut_to_four (access_token cfg);
               config_path := config_path cfg |}
  ∧ ∀ other : client.KiteClient,
      cut_to_four (client.api_key other) = cut_to_four (client.api_key self) →
      client.__repr__ other = client.__repr__ self.
Proof.
  split.
  - unfold __str__. cbn [api_key api_secret access_token config_path].
    by rewrite !masked_cut.
  - intros other Hcut. unfold client.__repr__.
    by rewrite <- (masked_cut (client.api_key other)), Hcut, masked_cut.
Qed.

(** ** The properties at the inputs of the test-suite *)

Import samples.

(** The scenario of [test_set_and_get_access_token]. *)
Lemma persisted_token_is_reloaded_witness :
  let fs : gmap string node := {[ "test_config.ini" := ini_file a_file ]} in
  file_value sample_library
    (set_access_token sample_library "new_programmatic_token" a_config fs).2
    "test_config.ini" "access_token" = Some "new_programmatic_token"
  ∧ access_token
      {| api_key := Some "test_key"; api_secret := Some "test_secret";
         access_token := Some "new_programmatic_token";
         config_path := "test_config.ini" |}
    = Some "new_programmatic_token".
Proof.
  intros fs.
  apply (persisted_token_is_reloaded sample_library "new_programmatic_token"
           a_config fs (ini_file a_file) a_file
           (Some "test_key") (Some "test_secret")
           (Some "test_config.ini") "/home/user" ∅);
    vm_compute; reflexivity.
Defined.

Lemma set_access_token_last_wins_witness :
  let fs : gmap string node := {[ "test_config.ini" := ini_file a_file ]} in
  set_access_token sample_library "second_token"
    (set_access_token sample_library "first_token" a_config fs).1.2
    (set_access_token sample_library "first_token" a_config fs).2
  = set_access_token sample_library "second_token" a_config fs.
Proof.
  intros fs.
  apply (set_access_token_last_wins sample_library "first_token" "second_token"
           a_config fs (ini_file a_file) a_file);
    vm_compute; reflexivity.
Defined.

Lemma persisting_keeps_file_credentials_witness :
  let fs : gmap string node := {[ "test_config.ini" := ini_file a_file ]} in
  file_value sample_library
    (set_access_token sample_library "new_programmatic_token" a_config fs).2
    "test_config.ini" "api_key"
  = file_value sample_library fs "test_config.ini" "api_key".
Proof.
  intros fs.
  apply (persisting_keeps_file_credentials sample_library "new_programmatic_token"
           a_config fs (ini_file a_file) a_file "api_key").
  - vm_compute. reflexivity.
  - reflexivity.
  - reflexivity.
  - reflexivity.
  - vm_compute. reflexivity.
  - reflexivity.
  - discriminate.
  - left. by eexists.
  - intros raw Hraw. vm_compute in Hraw. injection Hraw as <-.
    vm_compute. reflexivity.
Defined.

End ConfigMore.

(** * Further properties of the client *)

Module ClientMore.
Import config client.
Import ConfigFacts ClientFacts.

Section WithCollaborators.

Variable lib : Library.
Variable session_request : Request → transport_error + Response.
Variable kc_generate_session : string → string → result SessionData.
Variable KiteConnect_new :
  option string → option string → gmap string string → string → option KiteConnect.

Lemma handle_response_returns response v :
  handle_response lib response = inr v
  ↔ (status_code response < 400)%Z
    ∧ if contains "application/json"
           (default "" (headers response !! "content-type"))
      then json response = Some v
      else v = VStr (text response).
Proof.
  unfold handle_response.
  destruct (contains _ _); [destruct (json response) as [body|]|]; cbv zeta.
  - destruct (Z.leb_spec 400 (status_code response)) as [Hge|Hlt].
    + split; [|intros [? _]; lia].
      destruct body as [| | | | |d]; try discriminate.
      destruct (truthy _); [|discriminate].
      by destruct (exception_class_of _).
    + split; [intros [= <-]; by split | by intros [_ [= <-]]].
  - split; [discriminate | by intros [_ ?]].
  - destruct (Z.leb_spec 400 (status_code response)) as [Hge|Hlt].
    + split; [discriminate | intros [? _]; lia].
    + split; [intros [= <-]; by split | by intros [_ ->]].
Qed.

(** X7. A request returns a value exactly when the transport gave a
    response with a status below 400 whose body, if it is declared as
    JSON, could be parsed; the value is then the parsed body as it is,
    or the text of the body. *)
Theorem request_returns_iff method route params data is_json self w v :
  (_request lib session_request method route params data is_json self w).1.1 = inr v
  ↔ ∃ response,
      session_request (request_of lib method route params data is_json
                         (_update_headers self)) = inr response
      ∧ (status_code response < 400)%Z
      ∧ if contains "application/json"
             (default "" (headers response !! "content-type"))
        then json response = Some v
        else v = VStr (text response).
Proof.
  rewrite request_unfold. cbv zeta. cbn [fst].
  destruct (session_request _) as [[cause|e]|response].
  - split; [discriminate | by intros (response & [=] & _)].
  - split; [discriminate | by intros (response & [=] & _)].
  - rewrite handle_response_returns. split.
    + intros H. by exists response.
    + by intros (response' & [= <-] & H).
Qed.

(** X8. A transport failure surfaces as [NetworkException] without a
    code, with a message that holds the text of the cause. *)
Theorem transport_failure_is_network_error
    method route params data is_json self w cause :
  session_request (request_of lib method route params data is_json (_update_headers self))
  = inl (RequestException cause) →
  (_request lib session_request method route params data is_json self w).1.1
  = inl (Kite NetworkException (VStr ("Network error: " +:+ cause)) VNone)
  ∧ contains cause ("Network error: " +:+ cause) = true.
Proof.
  intros Hsent. rewrite request_unfold. cbv zeta. cbn [fst]. rewrite Hsent.
  split; [done | apply contains_append].
Qed.

(** X9. A body that is declared as JSON and cannot be parsed raises
    [DataException] without a code whatever the status is, also for a
    status of 400 or more. *)
Theorem unparsable_json_is_data_error
    method route params data is_json self w response :
  session_request (request_of lib method route params data is_json (_update_headers self))
  = inr response →
  contains "application/json" (default "" (headers response !! "content-type")) = true →
  json response = None →
  ∃ message,
    (_request lib session_request method route params data is_json self w).1.1
    = inl (Kite DataException (VStr message) VNone).
Proof.
  intros Hsent Hct Hjson. rewrite (request_outcome _ _ _ _ _ _ _ _ _ _ Hsent).
  unfold handle_response. rewrite Hct, Hjson. eauto.
Qed.

(** X10. A parsed JSON body with status 400 or more that names no error
    type (it is no dict, or its [error_type] is missing, null, empty or
    otherwise false) raises the base class [KiteException] with the
    status as code and a message made of the status and the raw text. *)
Theorem error_without_type_is_generic
    method route params data is_json self w response body :
  session_request (request_of lib method route params data is_json (_update_headers self))
  = inr response →
  contains "application/json" (default "" (headers response !! "content-type")) = true →
  json response = Some body →
  (400 ≤ status_code response)%Z →
  (∀ d, body = VDict d → truthy (default VNone (d !! "error_type")) = false) →
  (_request lib session_request method route params data is_json self w).1.1
  = inl (Kite KiteException
           (VStr ("HTTP error: " +:+ pretty (status_code response)
                  +:+ " - " +:+ text response))
           (VInt (status_code response))).
Proof.
  intros Hsent Hct Hjson Hstatus Hnotype.
  rewrite (request_outcome _ _ _ _ _ _ _ _ _ _ Hsent).
  unfold handle_response. rewrite Hct, Hjson. cbv zeta.
  apply Z.leb_le in Hstatus. rewrite Hstatus.
  destruct body as [| | | | |d]; try reflexivity.
  by rewrite (Hnotype d eq_refl).
Qed.



(** X12. [cancel_order] never sends [parent_order_id]: the request is a
    DELETE without query parameters and without a body, and the call has
    the outcome and the effects of the call without parent order. *)
Theorem cancel_order_drops_parent variety order_id parent_order_id self w :
  cancel_order lib session_request variety order_id parent_order_id self w
  = cancel_order lib session_request variety order_id None self w
  ∧ ∃ request,
      calls (cancel_order lib session_request variety order_id parent_order_id
               self w).2
      = (calls w ++ [SessionRequest request])%list
      ∧ method request = "DELETE"
      ∧ params request = None ∧ data request = None ∧ json_body request = None.
Proof.
  unfold cancel_order. rewrite !request_unfold. cbv zeta.
  split.
  - by destruct (truthy_str parent_order_id).
  - cbn [snd record_call calls]. eexists. split; [reflexivity|].
    by destruct (truthy_str parent_order_id).
Qed.


Lemma upper_ascii_again (c : Ascii.ascii) :
  upper_ascii (upper_ascii c) = upper_ascii c.
Proof. by destruct c as [[] [] [] [] [] [] [] []]. Qed.

Lemma upper_again (s : string) : upper (upper s) = upper s.
Proof. induction s as [|c s IH]; simpl; [done|]. by rewrite upper_ascii_again, IH. Qed.

Lemma upper_empty (s : string) : String.eqb (upper s) "" = String.eqb s "".
Proof. by destruct s. Qed.

(** X14. [get_instruments] does not distinguish the case of the letters
    of the exchange: the call for an exchange is the call for its
    upper-case form, and an empty exchange is the call for all
    exchanges. *)
Theorem get_instruments_ignores_case exchange self w :
  get_instruments lib session_request (Some exchange) self w
  = get_instruments lib session_request (Some (upper exchange)) self w
  ∧ get_instruments lib session_request (Some "") self w
    = get_instruments lib session_request None self w.
Proof.
  split; [|reflexivity]. unfold get_instruments, truthy_str.
  cbn [default from_option id]. by rewrite upper_empty, upper_again.
Qed.

(** X15. [get_historical_data] sends one GET request in which
    [continuous] and [oi] are the integers 0 or 1, 0 exactly for an
    argument that is false, and in which a date that is [None] is left
    out. *)
Theorem historical_data_parameters
    instrument_token from_date to_date interval continuous oi self w :
  ∃ request query,
    calls (get_historical_data lib session_request instrument_token from_date
             to_date interval continuous oi self w).2
    = (calls w ++ [SessionRequest request])%list
    ∧ method request = "GET"
    ∧ params request = Some query
    ∧ query !! "continuous" = Some (VInt (if truthy continuous then 1 else 0))
    ∧ query !! "oi" = Some (VInt (if truthy oi then 1 else 0))
    ∧ query !! "from" = (if is_none from_date then None else Some from_date)
    ∧ query !! "to" = (if is_none to_date then None else Some to_date).
Proof.
  unfold get_historical_data. rewrite request_unfold. cbv zeta.
  cbn [snd record_call calls]. eexists _, _.
  split; [reflexivity|]. do 2 (split; [reflexivity|]).
  unfold flag_int. split; [|split; [|split]].
  - by apply map_lookup_filter_Some.
  - by apply map_lookup_filter_Some.
  - destruct (is_none from_date) eqn:E.
    + apply map_lookup_filter_None_2. right. intros x Hx.
      change (Some from_date = Some x) in Hx. injection Hx as <-.
      cbn [snd]. rewrite E. discriminate.
    + by apply map_lookup_filter_Some.
  - destruct (is_none to_date) eqn:E.
    + apply map_lookup_filter_None_2. right. intros x Hx.
      change (Some to_date = Some x) in Hx. injection Hx as <-.
      cbn [snd]. rewrite E. discriminate.
    + by apply map_lookup_filter_Some.
Qed.

(** X16. A successful exchange whose token the config can persist
    without an exception authenticates the client: the payload is
    returned as it is, its token is stored on the client, on its config
    and on the [KiteConnect] object, the headers are recomputed for it,
    the token is persisted as [KiteConfig.set_access_token] persists it,
    and the exchange is the one call that was made. *)
Theorem generate_session_authenticates
    request_token api_secret_arg self w kc session_data token :
  kite_connect_client self = Some kc →
  truthy_str (or_else api_secret_arg (api_secret self)) = true →
  kc_generate_session request_token
    (default "" (or_else api_secret_arg (api_secret self))) = inr session_data →
  sd_access_token session_data = Some token →
  (config.set_access_token lib token (config self) (fs w)).1.1 = inr () →
  let out := generate_session lib kc_generate_session request_token api_secret_arg
               self w in
  out.1.1 = inr session_data
  ∧ access_token out.1.2 = Some token
  ∧ config.access_token (config out.1.2) = Some token
  ∧ kite_connect_client out.1.2 = Some {| kc_access_token := Some token |}
  ∧ api_key out.1.2 = api_key self
  ∧ recomputed (session_headers self) out.1.2 (session_headers out.1.2)
  ∧ fs out.2 = (config.set_access_token lib token (config self) (fs w)).2
  ∧ calls out.2
    = (calls w ++ [KcGenerateSession request_token
                     (default "" (or_else api_secret_arg (api_secret self)))])%list.
Proof.
  intros Hkc Hsecret Hexchange Htoken Hpersist out. subst out.
  rewrite (generate_session_unfold _ _ _ _ _ _ _ Hkc Hsecret). cbv zeta.
  rewrite Hexchange, Htoken.
  rewrite client_set_access_token_unfold. cbv zeta.
  cbn [fs record_call]. rewrite Hpersist. cbn [fst snd]. rewrite Hkc.
  do 5 (split; [reflexivity|]).
  split; [|split; reflexivity].
  apply (update_headers_recomputed (with_token _ _ _ self)).
Qed.

(** X17. An exchange whose payload has no [access_token] raises
    [TokenException] with the [status_code] entry of the payload as code
    ([None] without one); the client is left as it was and the exchange
    is the one call that was made. *)
Theorem session_without_token_is_token_error
    request_token api_secret_arg self w kc session_data :
  kite_connect_client self = Some kc →
  truthy_str (or_else api_secret_arg (api_secret self)) = true →
  kc_generate_session request_token
    (default "" (or_else api_secret_arg (api_secret self))) = inr session_data →
  sd_access_token session_data = None →
  generate_session lib kc_generate_session request_token api_secret_arg self w
  = (inl (Kite TokenException
            (VStr "Failed to generate session: 'access_token' not found in response.")
            (default VNone (sd_fields session_data !! "status_code"))),
     self,
     record_call
       (KcGenerateSession request_token
          (default "" (or_else api_secret_arg (api_secret self)))) w).
Proof.
  intros Hkc Hsecret Hexchange Htoken.
  rewrite (generate_session_unfold _ _ _ _ _ _ _ Hkc Hsecret). cbv zeta.
  by rewrite Hexchange, Htoken.
Qed.

(** X18. Whatever [generate_session] raises is an exception of the
    wrapper, and an exception of the wrapper that the exchange raises
    reaches the caller as it is. *)
Theorem generate_session_raises_wrapper_kinds request_token api_secret_arg self w :
  let out := generate_session lib kc_generate_session request_token api_secret_arg
               self w in
  (∀ e, out.1.1 = inl e → ∃ k message code, e = Kite k message code)
  ∧ (∀ kc k message code,
        kite_connect_client self = Some kc →
        truthy_str (or_else api_secret_arg (api_secret self)) = true →
        kc_generate_session request_token
          (default "" (or_else api_secret_arg (api_secret self)))
        = inl (Kite k message code) →
        out.1.1 = inl (Kite k message code)).
Proof.
  intros out. subst out. split.
  - intros e.
    destruct (kite_connect_client self) as [kc|] eqn:Hkc;
      [|unfold generate_session; rewrite Hkc; intros [= <-]; eauto].
    destruct (truthy_str (or_else api_secret_arg (api_secret self))) eqn:Hsecret;
      [|unfold generate_session; rewrite Hkc, Hsecret; intros [= <-]; eauto].
    rewrite (generate_session_unfold _ _ _ _ _ _ _ Hkc Hsecret). cbv zeta.
    destruct (kc_generate_session _ _) as [[k m c|foreign]|session_data].
    + intros [= <-]. eauto.
    + intros [= <-]. apply wrap_foreign_kind.
    + destruct (sd_access_token session_data) as [token|];
        [|intros [= <-]; eauto].
      cbn [fst].
      destruct (set_access_token lib token self _).1.1 as [[k m c|foreign]|[]];
        [intros [= <-]; eauto | intros [= <-]; apply wrap_foreign_kind
        | discriminate].
  - intros kc k message code Hkc Hsecret Hexchange.
    rewrite (generate_session_unfold _ _ _ _ _ _ _ Hkc Hsecret). cbv zeta.
    by rewrite Hexchange.
Qed.


(** X20. [generate_session] attempts the exchange at most once, never
    with an empty secret, and with the secret of the argument when one
    is given and the one of the client otherwise. *)
Theorem exchange_attempted_at_most_once request_token api_secret_arg self w :
  let out := generate_session lib kc_generate_session request_token api_secret_arg
               self w in
  calls out.2 = calls w
  ∨ ∃ secret,
      secret ≠ ""
      ∧ (api_secret_arg = Some secret
         ∨ (blank api_secret_arg ∧ api_secret self = Some secret))
      ∧ calls out.2 = (calls w ++ [KcGenerateSession request_token secret])%list.
Proof.
  intros out. subst out.
  destruct (kite_connect_client self) as [kc|] eqn:Hkc;
    [|left; unfold generate_session; by rewrite Hkc].
  destruct (truthy_str (or_else api_secret_arg (api_secret self))) eqn:Hsecret;
    [|left; unfold generate_session; by rewrite Hkc, Hsecret].
  right. apply truthy_str_true in Hsecret as Hs. destruct Hs as (secret & Hs & Hne).
  exists secret. split; [done|]. split.
  - unfold or_else in Hs.
    destruct (truthy_str api_secret_arg) eqn:Harg; [by left|].
    right. split; [by apply truthy_str_false | done].
  - rewrite (generate_session_unfold _ _ _ _ _ _ _ Hkc Hsecret). cbv zeta. rewrite Hs.
    cbn [default from_option id].
    destruct (kc_generate_session _ _) as [[k m c|foreign]|session_data]; try done.
    destruct (sd_access_token session_data) as [token|]; [|done].
    rewrite client_set_access_token_unfold. cbv zeta.
    by destruct (config.set_access_token _ _ _ _).1.1.
Qed.

(** X21. In every client that construction and the methods produce, the
    credentials of the client are those of its config. *)
Theorem reachable_credentials_in_sync self :
  reachable lib session_request kc_generate_session KiteConnect_new self →
  access_token self = config.access_token (config self)
  ∧ api_key self = config.api_key (config self)
  ∧ api_secret self = config.api_secret (config self).
Proof.
  assert (Hset : ∀ token self w,
             access_token self = config.access_token (config self)
             ∧ api_key self = config.api_key (config self)
             ∧ api_secret self = config.api_secret (config self) →
             let self' := (set_access_token lib token self w).1.2 in
             access_token self' = config.access_token (config self')
             ∧ api_key self' = config.api_key (config self')
             ∧ api_secret self' = config.api_secret (config self')).
  { intros token self0 w (Ht & Hk & Hs).
    rewrite client_set_access_token_unfold. cbv zeta.
    by destruct (config.set_access_token _ _ _ _).1.1. }
  induction 1 as [k s t p dbg tmo prx home environ fs self Hinit
                 | token self w _ IH
                 | method route params data is_json self w _ IH
                 | request_token api_secret_arg self w _ IH
                 | instruments self w _ IH].
  - unfold client.__init__ in Hinit.
    destruct (config.__init__ _ _ _ _ _ _ _ _) as [e|cfg]; [discriminate|].
    by injection Hinit as <-.
  - by apply Hset.
  - by rewrite request_unfold.
  - destruct (generate_session_client lib kc_generate_session request_token
                api_secret_arg self w)
      as [-> | (token & w' & ->)]; [done|].
    by apply Hset.
  - unfold get_quote. case_bool_decide; [done|]. by rewrite request_unfold.
Qed.

(** X22. Construction of the client fails exactly when the construction
    of its config fails, with the same exception; a [KiteConnect]
    constructor that raises is no error, it leaves the client without
    [KiteConnect] object. *)
Theorem client_construction_outcome k s t p dbg tmo prx home environ fs :
  match config.__init__ lib k s t p home environ fs with
  | inl e =>
      client.__init__ lib KiteConnect_new k s t p dbg tmo prx home environ fs = inl e
  | inr cfg =>
      ∃ self,
        client.__init__ lib KiteConnect_new k s t p dbg tmo prx home environ fs
        = inr self
        ∧ config self = cfg
        ∧ (KiteConnect_new (config.api_key cfg) (config.access_token cfg)
             (default ∅ prx) _root = None →
           kite_connect_client self = None)
        ∧ (∀ kc, KiteConnect_new (config.api_key cfg) (config.access_token cfg)
                   (default ∅ prx) _root = Some kc →
                 ¬ blank (config.access_token cfg) →
                 kite_connect_client self
                 = Some {| kc_access_token := config.access_token cfg |})
  end.
Proof.
  unfold client.__init__.
  destruct (config.__init__ lib k s t p home environ fs) as [e|cfg]; [done|].
  eexists. split; [reflexivity|]. cbn. unfold get_api_key, get_access_token.
  split; [done|]. split.
  - by intros ->.
  - intros kc -> Htoken.
    destruct (truthy_str (config.access_token cfg)) eqn:E; [done|].
    by apply truthy_str_false in E.
Qed.

(** X23. Every endpoint method makes exactly one request and nothing
    else: one call is recorded, the file system is untouched, and the
    client changes in its recomputed session headers only ([get_quote]
    when it is given an instrument). *)
Theorem endpoints_make_one_request self w :
  (∀ segment, one_request self w (margins lib session_request segment self w))
  ∧ one_request self w (profile lib session_request self w)
  ∧ (∀ variety exchange tradingsymbol transaction_type quantity product order_type
       price validity disclosed_quantity trigger_price squareoff stoploss
       trailing_stoploss tag,
        one_request self w
          (place_order lib session_request variety exchange tradingsymbol
             transaction_type quantity product order_type price validity
             disclosed_quantity trigger_price squareoff stoploss trailing_stoploss
             tag self w))
  ∧ (∀ variety order_id parent_order_id quantity price order_type trigger_price
       validity disclosed_quantity,
        one_request self w
          (modify_order lib session_request variety order_id parent_order_id quantity
             price order_type trigger_price validity disclosed_quantity self w))
  ∧ (∀ variety order_id parent_order_id,
        one_request self w
          (cancel_order lib session_request variety order_id parent_order_id self w))
  ∧ (∀ order_id,
        one_request self w (get_order_history lib session_request order_id self w))
  ∧ (∀ order_id, one_request self w (get_trades lib session_request order_id self w))
  ∧ one_request self w (get_positions lib session_request self w)
  ∧ one_request self w (get_holdings lib session_request self w)
  ∧ (∀ exchange,
        one_request self w (get_instruments lib session_request exchange self w))
  ∧ (∀ first rest,
        one_request self w (get_quote lib session_request (first :: rest) self w))
  ∧ (∀ instrument_token from_date to_date interval continuous oi,
        one_request self w
          (get_historical_data lib session_request instrument_token from_date
             to_date interval continuous oi self w)).
Proof.
  assert (Hrequest : ∀ method route params data is_json,
             one_request self w
               (_request lib session_request method route params data is_json
                  self w)).
  { intros. rewrite request_unfold. cbv zeta. unfold one_request. cbn [fst snd].
    split; [by eexists | done]. }
  repeat apply conj; intros; apply Hrequest.
Qed.

(** X24. Recomputing the headers touches three names only, always sets
    [User-Agent], and is idempotent, so the client that one request
    leaves is the client that any further request leaves. *)
Theorem update_headers_frame_and_idempotent self :
  (∀ name, name ≠ "X-Kite-Version" → name ≠ "User-Agent" → name ≠ "Authorization" →
           session_headers (_update_headers self) !! name
           = session_headers self !! name)
  ∧ session_headers (_update_headers self) !! "User-Agent"
    = Some "KiteConnect-Python/3"
  ∧ _update_headers (_update_headers self) = _update_headers self
  ∧ ∀ method route params data is_json w method' route' params' data' is_json' w',
      (_request lib session_request method' route' params' data' is_json'
         (_request lib session_request method route params data is_json self w).1.2
         w').1.2
      = (_request lib session_request method route params data is_json self w).1.2.
Proof.
  assert (Hidem : _update_headers (_update_headers self) = _update_headers self).
  { unfold _update_headers, with_session_headers, new_headers. cbn.
    f_equal. by rewrite (assoc_L (∪)), (idemp_L (∪)). }
  split; [|split; [|split; [done|]]].
  - intros name Hv Hu Ha. unfold _update_headers. cbn [session_headers with_session_headers].
    rewrite lookup_union_r; [done|].
    unfold new_headers. destruct (truthy_str (api_key self));
      rewrite ?(lookup_insert_ne _ "Authorization") by done;
      rewrite lookup_insert_ne by done; by rewrite lookup_singleton_ne.
  - unfold _update_headers. cbn [session_headers with_session_headers].
    apply lookup_union_Some_l. unfold new_headers.
    destruct (truthy_str (api_key self));
      rewrite ?(lookup_insert_ne _ "Authorization") by done;
      rewrite lookup_insert_ne by done; by rewrite lookup_singleton_eq.
  - intros. by rewrite !request_unfold.
Qed.

End WithCollaborators.

(** ** The properties at the inputs of the test-suite *)

Import samples.

Lemma transport_failure_is_network_error_witness :
  (_request sample_library (failing "Connection timed out") "GET" "/test/timeout"
     None None false a_client a_world).1.1
  = inl (Kite NetworkException (VStr "Network error: Connection timed out") VNone)
  ∧ contains "Connection timed out" "Network error: Connection timed out" = true.
Proof.
  apply (transport_failure_is_network_error sample_library
           (failing "Connection timed out")
           "GET" "/test/timeout" None None false a_client a_world
           "Connection timed out").
  reflexivity.
Defined.

Lemma unparsable_json_is_data_error_witness :
  ∃ message,
    (_request sample_library (responding malformed_json) "GET" "/test/malformed"
       None None false a_client a_world).1.1
    = inl (Kite DataException (VStr message) VNone).
Proof.
  apply (unparsable_json_is_data_error sample_library (responding malformed_json)
           "GET" "/test/malformed" None None false a_client a_world malformed_json);
    reflexivity.
Defined.

Lemma error_without_type_is_generic_witness :
  (_request sample_library (responding error_without_type) "GET" "/test/error/500"
     None None false a_client a_world).1.1
  = inl (Kite KiteException (VStr "HTTP error: 500 - {}") (VInt 500)).
Proof.
  apply (error_without_type_is_generic sample_library (responding error_without_type)
           "GET" "/test/error/500" None None false a_client a_world
           error_without_type (VDict ∅)).
  - reflexivity.
  - reflexivity.
  - reflexivity.
  - vm_compute. discriminate.
  - intros d [= <-]. reflexivity.
Defined.


Lemma generate_session_authenticates_witness :
  let out := generate_session sample_library (exchange_returning a_session)
               "myrequesttoken" None a_client a_world_with_file in
  out.1.1 = inr a_session
  ∧ access_token out.1.2 = Some "newtoken"
  ∧ config.access_token (config out.1.2) = Some "newtoken"
  ∧ kite_connect_client out.1.2 = Some {| kc_access_token := Some "newtoken" |}
  ∧ api_key out.1.2 = api_key a_client
  ∧ recomputed (session_headers a_client) out.1.2 (session_headers out.1.2)
  ∧ fs out.2
    = (config.set_access_token sample_library "newtoken" (config a_client)
         (fs a_world_with_file)).2
  ∧ calls out.2
    = (calls a_world_with_file
         ++ [KcGenerateSession "myrequesttoken" "myapisecret"])%list.
Proof.
  apply (generate_session_authenticates sample_library (exchange_returning a_session)
           "myrequesttoken" None a_client a_world_with_file
           {| kc_access_token := Some "myaccesstoken" |} a_session "newtoken");
    reflexivity.
Defined.

Lemma session_without_token_is_token_error_witness :
  generate_session sample_library (exchange_returning session_without_token)
    "myrequesttoken" None a_client a_world
  = (inl (Kite TokenException
            (VStr "Failed to generate session: 'access_token' not found in response.")
            (VInt 400)),
     a_client,
     record_call (KcGenerateSession "myrequesttoken" "myapisecret") a_world).
Proof.
  apply (session_without_token_is_token_error sample_library
           (exchange_returning session_without_token)
           "myrequesttoken" None a_client a_world
           {| kc_access_token := Some "myaccesstoken" |} session_without_token);
    reflexivity.
Defined.


(** The client of [test_client_initialization_no_token_on_init], built
    from direct parameters. *)
Lemma reachable_credentials_in_sync_witness :
  let self :=
    _update_headers
      {| config := {| config.api_key := Some "myapikey";
                      config.api_secret := Some "myapisecret";
                      config.access_token := None;
                      config_path := "kite.ini" |};
         debug := false; access_token := None;
         api_key := Some "myapikey"; api_secret := Some "myapisecret";
         _timeout := 7; proxies := ∅;
         kite_connect_client := Some {| kc_access_token := None |};
         session_headers := session_default_headers |} in
  access_token self = config.access_token (config self)
  ∧ api_key self = config.api_key (config self)
  ∧ api_secret self = config.api_secret (config self).
Proof.
  intros self.
  apply (reachable_credentials_in_sync sample_library (failing "unused")
           (exchange_returning a_session) kite_connect_new self).
  apply (reachable_init _ _ _ _ (Some "myapikey") (Some "myapisecret") None
           (Some "kite.ini") false None None "/home/user" ∅ ∅).
  reflexivity.
Defined.

End ClientMore.
